(** * Token lifecycle of [utils/auth.py]

    A shallow embedding of the OAuth access-token and dxFeed streamer-token
    acquisition of the Tastytrade dashboard, together with the properties
    its specification states about caching, refresh and failure.

    The Python module talks to four ambient things: the Streamlit secret
    store, the Streamlit session state, the wall clock and the network.
    The secret store, the clock and the network are read-only for the
    module and live in an environment [Env]; the session state, the number
    of clock readings taken and the list of requests issued form the
    mutable [World].  A Python function becomes a computation in the monad
    [Py], which threads the world and may raise; as in Python, the effects
    performed before an exception is raised stay in place. *)

From Stdlib Require Import ZArith String List Lia.
From stdpp Require Import base option gmap strings.
Import ListNotations.
Local Open Scope string_scope.
Local Open Scope list_scope.
Local Open Scope Z_scope.
Set Warnings "-register-all".

(** ** Python values *)

(** The values that flow through the module: what [response.json()] can
    produce and what the session state holds.  A Python [dict] with
    string keys is an association list in which the first binding of a
    key is the live one.  [VNum] is a Python [int], as a JSON integer
    parses.  Timestamps are read in whole seconds: a reading of
    [time.time()] is a float with an integer value below 2^53, and so are
    the expiry instants computed from readings and constants.  Where an
    [int] from the network meets a float, the conversion and the rounding
    of the sum are modelled ([float_add]). *)
Inductive value : Type :=
| VNone
| VBool (b : bool)
| VNum (n : Z)
| VStr (s : string)
| VList (l : list value)
| VDict (d : list (string * value)).

(** The exceptions the module can raise or let through.  [Exception] is
    the bare built-in class raised on a non-200 answer, [ValueError] the
    one raised by [load_credentials], [OverflowError] what [float + int]
    raises for an [int] beyond the floats, and
    [StreamlitSecretNotFoundError] (a [FileNotFoundError]) what
    [st.secrets[...]] raises when there is no secrets file. *)
Inductive exn : Type :=
| KeyError (key : string)
| AttributeError (name : string)
| TypeError
| ValueError (msg : string)
| Exception (msg : string)
| OverflowError
| StreamlitSecretNotFoundError
| JSONDecodeError
| RequestException.

Inductive result (A : Type) : Type :=
| Ok (a : A)
| Raise (e : exn).
Arguments Ok {A} a.
Arguments Raise {A} e.

(** ** Network *)

(** An f-string with one hole, [f"{lit}{arg}"], kept unformatted. *)
Record fstring : Type := FStr { lit : string; arg : value }.

Inductive request : Type :=
| POST (url : string) (data : list (string * string))
| GET (url : string) (headers : list (string * fstring)).

(** What [requests] hands back: the status, the raw body and the outcome
    of [response.json()] ([None] when the body is not JSON). *)
Record Response : Type :=
  { status_code : Z; text : string; json : option value }.

Inductive reply : Type :=
| Responded (r : Response)
| Unreachable.

(** ** Environment and world *)

(** [st.secrets]: no secrets file at all, or the keys of the file. *)
Inductive secret_store : Type :=
| NoSecretsFile
| SecretsFile (s : gmap string string).

#[global] Instance secret_store_lookup : Lookup string string secret_store :=
  fun k st =>
    match st with
    | NoSecretsFile => None
    | SecretsFile s => s !! k
    end.

Record Env : Type :=
  { secrets : secret_store;                (* st.secrets *)
    clock : nat -> Z;                      (* n-th reading of time.time() *)
    http : list request -> request -> reply (* answer, given the history *) }.

Record World : Type :=
  { session_state : gmap string value;     (* st.session_state *)
    ticks : nat;                           (* clock readings taken *)
    sent : list request                    (* requests issued, oldest first *) }.

Definition with_session (f : gmap string value -> gmap string value)
    (w : World) : World :=
  {| session_state := f (session_state w); ticks := ticks w; sent := sent w |}.

Definition tick (w : World) : World :=
  {| session_state := session_state w; ticks := S (ticks w); sent := sent w |}.

Definition record (q : request) (w : World) : World :=
  {| session_state := session_state w; ticks := ticks w;
     sent := sent w ++ [q] |}.

(** ** The monad *)

Definition Py (A : Type) : Type := Env -> World -> result A * World.

Definition run {A} (m : Py A) (e : Env) (w : World) : result A * World :=
  m e w.

#[global] Instance Py_ret : MRet Py := fun A a _ w => (Ok a, w).

#[global] Instance Py_bind : MBind Py := fun A B k m e w =>
  match m e w with
  | (Ok a, w') => k a e w'
  | (Raise x, w') => (Raise x, w')
  end.

Definition raise {A} (x : exn) : Py A := fun _ w => (Raise x, w).

(** [try: m  except ...: h]; the handler re-raises what it does not
    catch. *)
Definition try_except {A} (m : Py A) (h : exn -> Py A) : Py A := fun e w =>
  match m e w with
  | (Ok a, w') => (Ok a, w')
  | (Raise x, w') => h x e w'
  end.

(** ** Primitive operations *)

Fixpoint assoc (k : string) (d : list (string * value)) : option value :=
  match d with
  | [] => None
  | (k', v) :: d' => if String.eqb k k' then Some v else assoc k d'
  end.

(** [v[k]] for a string key [k]. *)
Definition subscript (v : value) (k : string) : Py value :=
  match v with
  | VDict d => match assoc k d with
               | Some x => mret x
               | None => raise (KeyError k)
               end
  | _ => raise TypeError
  end.

(** [v.get(k, dflt)]. *)
Definition dict_get (v : value) (k : string) (dflt : value) : Py value :=
  match v with
  | VDict d => mret (default dflt (assoc k d))
  | _ => raise (AttributeError "get")
  end.

(** The number a value stands for in arithmetic with a float. *)
Definition as_number (v : value) : option Z :=
  match v with
  | VNum n => Some n
  | VBool b => Some (if b then 1 else 0)
  | _ => None
  end.

(** [v > t] for a float [t]. *)
Definition gt_float (v : value) (t : Z) : Py bool :=
  match as_number v with
  | Some n => mret (t <? n)
  | None => raise TypeError
  end.

(** The double nearest to the integer [z], ties to even: 53 significant
    bits are kept. *)
Definition round_double (z : Z) : Z :=
  let a := Z.abs z in
  if a <? 2 ^ 53 then z
  else
    let e := Z.log2 a - 52 in
    let q := a / 2 ^ e in
    let r := a mod 2 ^ e in
    let half := 2 ^ (e - 1) in
    let q' := if r <? half then q
              else if half <? r then q + 1
              else if Z.even q then q else q + 1 in
    Z.sgn z * (q' * 2 ^ e).

(** Converting the [int] [n] to a float fails when its nearest double
    would be 2^1024 or more. *)
Definition float_of_int_overflows (n : Z) : bool :=
  2 ^ 1024 <=? Z.abs (round_double n).

(** The float [t + float(n)]: the [int] is rounded to a double, and so is
    the sum. *)
Definition float_sum (t n : Z) : Z := round_double (t + round_double n).

(** [t + v] for a float [t]. *)
Definition float_add (t : Z) (v : value) : Py Z :=
  match as_number v with
  | Some n =>
      if float_of_int_overflows n then raise OverflowError
      else mret (float_sum t n)
  | None => raise TypeError
  end.

(** [time.time()] *)
Definition time_time : Py Z := fun e w => (Ok (clock e (ticks w)), tick w).

(** [st.secrets[k]] *)
Definition secret (k : string) : Py string := fun e w =>
  match secrets e with
  | NoSecretsFile => (Raise StreamlitSecretNotFoundError, w)
  | SecretsFile s =>
      match s !! k with
      | Some v => (Ok v, w)
      | None => (Raise (KeyError k), w)
      end
  end.

(** [k in st.session_state] *)
Definition session_contains (k : string) : Py bool := fun _ w =>
  (Ok (match session_state w !! k with Some _ => true | None => false end), w).

(** [st.session_state.k] *)
Definition session_read (k : string) : Py value := fun _ w =>
  match session_state w !! k with
  | Some v => (Ok v, w)
  | None => (Raise (AttributeError k), w)
  end.

(** [st.session_state.k = v] *)
Definition session_write (k : string) (v : value) : Py unit := fun _ w =>
  (Ok tt, with_session (insert k v) w).

Definition send (q : request) : Py Response := fun e w =>
  match http e (sent w) q with
  | Responded r => (Ok r, record q w)
  | Unreachable => (Raise RequestException, record q w)
  end.

Definition requests_post (url : string) (data : list (string * string))
  : Py Response := send (POST url data).

Definition requests_get (url : string) (headers : list (string * fstring))
  : Py Response := send (GET url headers).

(** [response.json()] *)
Definition response_json (r : Response) : Py value :=
  match json r with
  | Some v => mret v
  | None => raise JSONDecodeError
  end.

(** ** The module *)

Record credentials : Type :=
  { client_id : string; client_secret : string; refresh_token : string }.

Definition missing_secrets : string :=
  "Missing required secrets. Please set CLIENT_ID, CLIENT_SECRET, and REFRESH_TOKEN in Streamlit Cloud Secrets.".

Definition load_credentials : Py credentials :=
  try_except
    (cid ← secret "CLIENT_ID";
     cs ← secret "CLIENT_SECRET";
     rt ← secret "REFRESH_TOKEN";
     mret {| client_id := cid; client_secret := cs; refresh_token := rt |})
    (fun x => match x with
              | KeyError _ => raise (ValueError missing_secrets)
              | _ => raise x
              end).

Definition token_url : string := "https://api.tastytrade.com/oauth/token".
Definition quote_url : string := "https://api.tastyworks.com/api-quote-tokens".

Definition token_request (c : credentials) : request :=
  POST token_url
    [("grant_type", "refresh_token");
     ("refresh_token", refresh_token c);
     ("client_id", client_id c);
     ("client_secret", client_secret c)].

Definition quote_request (access_token : value) : request :=
  GET quote_url [("Authorization", FStr "Bearer " access_token)].

(** Lines 36-41 of [get_access_token]: [Some tok] stands for the early
    [return tok], [None] for falling through to the refresh. *)
Definition cached_access_token (force_refresh : bool) : Py (option value) :=
  if negb force_refresh then
    present ← session_contains "access_token_data";
    if (present : bool) then
      token_data ← session_read "access_token_data";
      expires_at ← subscript token_data "expires_at";
      now ← time_time;
      fresh ← gt_float expires_at (now + 60);
      if (fresh : bool) then
        tok ← subscript token_data "access_token";
        mret (Some tok)
      else mret None
    else mret None
  else mret None.

(** Lines 43-69 of [get_access_token]. *)
Definition refresh_access_token : Py value :=
  creds ← load_credentials;
  response ← requests_post token_url
    [("grant_type", "refresh_token");
     ("refresh_token", refresh_token creds);
     ("client_id", client_id creds);
     ("client_secret", client_secret creds)];
  if negb (status_code response =? 200) then
    raise (Exception ("Token error: " +:+ text response))
  else
    token_response ← response_json response;
    access_token ← subscript token_response "access_token";
    expires_in ← dict_get token_response "expires_in" (VNum 900);
    now ← time_time;
    expires_at ← float_add now expires_in;
    session_write "access_token_data"
      (VDict [("access_token", access_token); ("expires_at", VNum expires_at)]);;
    mret access_token.

Definition get_access_token (force_refresh : bool) : Py value :=
  hit ← cached_access_token force_refresh;
  match hit with
  | Some tok => mret tok
  | None => refresh_access_token
  end.

(** Lines 74-77 of [get_streamer_token]. *)
Definition cached_streamer_token (force_refresh : bool) : Py (option value) :=
  if negb force_refresh then
    present ← session_contains "streamer_token_data";
    if (present : bool) then
      token_data ← session_read "streamer_token_data";
      expires_at ← subscript token_data "expires_at";
      now ← time_time;
      fresh ← gt_float expires_at (now + 300);
      if (fresh : bool) then
        tok ← subscript token_data "token";
        mret (Some tok)
      else mret None
    else mret None
  else mret None.

(** Lines 79-80 of [get_streamer_token]:
    [if access_token is None: access_token = get_access_token()]. *)
Definition resolve_access_token (access_token : value) : Py value :=
  match access_token with
  | VNone => get_access_token false
  | _ => mret access_token
  end.

(** Lines 82-102 of [get_streamer_token]. *)
Definition request_streamer_token (access_token : value) : Py value :=
  response ← requests_get quote_url
    [("Authorization", FStr "Bearer " access_token)];
  if negb (status_code response =? 200) then
    raise (Exception ("Streamer token error: " +:+ text response))
  else
    result ← response_json response;
    data ← subscript result "data";
    streamer_token ← subscript data "token";
    now ← time_time;
    session_write "streamer_token_data"
      (VDict [("token", streamer_token);
              ("expires_at", VNum (now + 20 * 3600))]);;
    mret streamer_token.

(** Lines 79-102 of [get_streamer_token]. *)
Definition refresh_streamer_token (access_token : value) : Py value :=
  access_token ← resolve_access_token access_token;
  request_streamer_token access_token.

Definition get_streamer_token (access_token : value) (force_refresh : bool)
  : Py value :=
  hit ← cached_streamer_token force_refresh;
  match hit with
  | Some tok => mret tok
  | None => refresh_streamer_token access_token
  end.

Definition ensure_streamer_token : Py value :=
  get_streamer_token VNone false.

(** ** Cache entries as the module writes them *)

Definition access_entry (tok : value) (expires_at : Z) : value :=
  VDict [("access_token", tok); ("expires_at", VNum expires_at)].

Definition streamer_entry (tok : value) (expires_at : Z) : value :=
  VDict [("token", tok); ("expires_at", VNum expires_at)].

(** ** Normal forms

    The cache probe and the two exchanges written as one case analysis
    each; they are proved equal to the module's functions below and serve
    the proofs only. *)

(** A cache probe spelled out on the content of its slot: the slot [key]
    is served when it is a dict whose ["expires_at"] lies more than
    [margin] seconds after the clock reading, and the token is then its
    field [field]. *)
Definition probe (key field : string) (margin : Z) (e : Env) (w : World)
  : result (option value) * World :=
  match session_state w !! key with
  | None => (Ok None, w)
  | Some (VDict d) =>
      match assoc "expires_at" d with
      | None => (Raise (KeyError "expires_at"), w)
      | Some x =>
          match as_number x with
          | None => (Raise TypeError, tick w)
          | Some n =>
              if clock e (ticks w) + margin <? n then
                match assoc field d with
                | Some tok => (Ok (Some tok), tick w)
                | None => (Raise (KeyError field), tick w)
                end
              else (Ok None, tick w)
          end
      end
  | Some _ => (Raise TypeError, w)
  end.

(** One pass through the refresh of the access token, spelled out on the
    answer of the token endpoint. *)
Definition access_exchange (e : Env) (w : World) (c : credentials)
  : result value * World :=
  let w1 := record (token_request c) w in
  match http e (sent w) (token_request c) with
  | Unreachable => (Raise RequestException, w1)
  | Responded r =>
      if status_code r =? 200 then
        match json r with
        | None => (Raise JSONDecodeError, w1)
        | Some (VDict d) =>
            match assoc "access_token" d with
            | None => (Raise (KeyError "access_token"), w1)
            | Some tok =>
                match as_number (default (VNum 900) (assoc "expires_in" d)) with
                | None => (Raise TypeError, tick w1)
                | Some ttl =>
                    if float_of_int_overflows ttl then
                      (Raise OverflowError, tick w1)
                    else
                      (Ok tok,
                       with_session
                         (insert "access_token_data"
                            (access_entry tok
                               (float_sum (clock e (ticks w)) ttl)))
                         (tick w1))
                end
            end
        | Some _ => (Raise TypeError, w1)
        end
      else (Raise (Exception ("Token error: " +:+ text r)), w1)
  end.

(** One pass through the quote-token request with a resolved access
    token, spelled out on the answer of the endpoint. *)
Definition quote_exchange (e : Env) (w : World) (access_token : value)
  : result value * World :=
  let w1 := record (quote_request access_token) w in
  match http e (sent w) (quote_request access_token) with
  | Unreachable => (Raise RequestException, w1)
  | Responded r =>
      if status_code r =? 200 then
        match json r with
        | None => (Raise JSONDecodeError, w1)
        | Some (VDict d) =>
            match assoc "data" d with
            | None => (Raise (KeyError "data"), w1)
            | Some (VDict d') =>
                match assoc "token" d' with
                | None => (Raise (KeyError "token"), w1)
                | Some tok =>
                    (Ok tok,
                     with_session
                       (insert "streamer_token_data"
                          (streamer_entry tok (clock e (ticks w) + 72000)))
                       (tick w1))
                end
            | Some _ => (Raise TypeError, w1)
            end
        | Some _ => (Raise TypeError, w1)
        end
      else (Raise (Exception ("Streamer token error: " +:+ text r)), w1)
  end.

(** ** What a call can observe *)

(** Two worlds look the same through the slots in [P]: same clock
    position, same request history, same content of every slot in [P]. *)
Definition same_view (P : string -> Prop) (w1 w2 : World) : Prop :=
  ticks w1 = ticks w2 /\ sent w1 = sent w2 /\
  forall k, P k -> session_state w1 !! k = session_state w2 !! k.

(** ** Scenario data *)

(** The credentials and the two answers of the end-to-end scenario. *)
Definition scenario_credentials : credentials :=
  {| client_id := "c1"; client_secret := "s1"; refresh_token := "r1" |}.

Definition scenario_token_body : value :=
  VDict [("access_token", VStr "AT1"); ("expires_in", VNum 900)].

Definition scenario_quote_body : value :=
  VDict [("data", VDict [("token", VStr "ST1")])].

Definition scenario_secrets : gmap string string :=
  {[ "CLIENT_ID" := "c1"; "CLIENT_SECRET" := "s1"; "REFRESH_TOKEN" := "r1" ]}.

Definition ok_reply (body : value) : reply :=
  Responded {| status_code := 200; text := "(body)"; json := Some body |}.

Definition unauthorized : Response :=
  {| status_code := 401; text := "unauthorized"; json := None |}.

Definition denied : reply := Responded unauthorized.

(** An endpoint pair: every POST gets [token_reply], every GET
    [quote_reply]. *)
Definition answering (token_reply quote_reply : reply)
  : list request -> request -> reply :=
  fun _ q =>
    match q with
    | POST _ _ => token_reply
    | GET _ _ => quote_reply
    end.

Definition env_with (s : gmap string string) (token_reply quote_reply : reply)
  : Env :=
  {| secrets := SecretsFile s;
     clock := fun n => 1000 + Z.of_nat n;
     http := answering token_reply quote_reply |}.

Definition scenario_env : Env :=
  env_with scenario_secrets
    (ok_reply scenario_token_body) (ok_reply scenario_quote_body).

Definition denying_env : Env := env_with scenario_secrets denied denied.

Definition world_of (s : gmap string value) : World :=
  {| session_state := s; ticks := 0; sent := [] |}.

Definition cold : World := world_of ∅.

Definition old_access : value := VStr "AT0".
Definition old_streamer : value := VStr "ST0".

(** A world whose two slots expire at [ea] and [es]. *)
Definition warm (ea es : Z) : World :=
  world_of {[ "access_token_data" := access_entry old_access ea;
              "streamer_token_data" := streamer_entry old_streamer es ]}.

Definition supplied : value := VStr "AT9".

Definition bare_token_body : value := VDict [("access_token", VStr "AT1")].

Definition bare_env : Env :=
  env_with scenario_secrets
    (ok_reply bare_token_body) (ok_reply scenario_quote_body).

Definition unconfigured_env : Env :=
  env_with {[ "CLIENT_ID" := "c1"; "REFRESH_TOKEN" := "r1" ]}
    (ok_reply scenario_token_body) (ok_reply scenario_quote_body).

Definition empty_env : Env :=
  env_with scenario_secrets (ok_reply (VDict [])) (ok_reply (VDict [])).

(** ** Slots as the module leaves them *)

(** A session state in which each of the two slots is either absent or an
    entry of the shape the module writes. *)
Definition well_formed (s : gmap string value) : Prop :=
  (s !! "access_token_data" = None \/
   exists tok exp, s !! "access_token_data" = Some (access_entry tok exp)) /\
  (s !! "streamer_token_data" = None \/
   exists tok exp, s !! "streamer_token_data" = Some (streamer_entry tok exp)).

(** The token an entry holds under [field], and the number its
    ["expires_at"] stands for. *)
Definition holds (field : string) (tok : value) (expires_at : Z)
    (slot : option value) : Prop :=
  exists d, slot = Some (VDict d) /\ assoc field d = Some tok /\
    exists x, assoc "expires_at" d = Some x /\ as_number x = Some expires_at.

(** ** The self-test

    Lines 118-146, the body run under [if __name__ == "__main__"].  What
    [print] receives is kept as a [printed] item: a literal as the source
    writes it, escapes included, or the f-string [f"{prefix}{e}\n"] with
    the exception left unformatted.  [exit(1)] ends the run with status
    1; falling off the end is status 0. *)
Inductive printed : Type :=
| Line (s : string)
| ErrorLine (prefix : string) (e : exn).

Definition main (e : Env) (w : World) : list printed * Z * World :=
  let out := [Line "Testing authentication flow...\n"] in
  match run load_credentials e w with
  | (Raise x, w1) =>
      (out ++ [ErrorLine "❌ Error loading credentials: " x], 1, w1)
  | (Ok creds, w1) =>
      let out := out ++ [Line "✅ Credentials loaded successfully\n"] in
      match run (get_access_token false) e w1 with
      | (Raise x, w2) =>
          (out ++ [ErrorLine "❌ Error getting access token: " x], 1, w2)
      | (Ok access_token, w2) =>
          let out := out ++ [Line "✅ Access token obtained successfully\n"] in
          match run (get_streamer_token access_token false) e w2 with
          | (Raise x, w3) =>
              (out ++ [ErrorLine "❌ Error getting streamer token: " x], 1, w3)
          | (Ok streamer_token, w3) =>
              (out ++ [Line "✅ Streamer token obtained successfully\n";
                       Line "✅ All authentication tests passed!"], 0, w3)
          end
      end
  end.

(** An environment in which the module can always get its tokens: the
    three secrets are there, every token request is answered 200 with an
    object holding an [access_token] and no [expires_in] or a numeric one
    that converts to a float,
    and every quote-token request is answered 200 with an object holding
    [data.token]. *)
Definition healthy (e : Env) : Prop :=
  (exists c, forall w, run load_credentials e w = (Ok c, w)) /\
  (forall h c, exists r d tok ttl,
     http e h (token_request c) = Responded r /\ status_code r = 200 /\
     json r = Some (VDict d) /\ assoc "access_token" d = Some tok /\
     as_number (default (VNum 900) (assoc "expires_in" d)) = Some ttl /\
     float_of_int_overflows ttl = false) /\
  (forall h a, exists r d d' tok,
     http e h (quote_request a) = Responded r /\ status_code r = 200 /\
     json r = Some (VDict d) /\ assoc "data" d = Some (VDict d') /\
     assoc "token" d' = Some tok).

(** The environment [e] with another secret store. *)
Definition with_secrets (s : gmap string string) (e : Env) : Env :=
  {| secrets := SecretsFile s; clock := clock e; http := http e |}.

(** An environment whose network is down: [requests] raises on every
    request. *)
Definition offline_env : Env :=
  {| secrets := SecretsFile scenario_secrets;
     clock := fun n => 1000 + Z.of_nat n;
     http := fun _ _ => Unreachable |}.

(** A token endpoint whose [expires_in] is a string. *)
Definition string_ttl_body : value :=
  VDict [("access_token", VStr "AT1"); ("expires_in", VStr "900")].

Definition string_ttl_env : Env :=
  env_with scenario_secrets
    (ok_reply string_ttl_body) (ok_reply scenario_quote_body).

(** Endpoints answering 200 with a body that is not JSON. *)
Definition not_json : Response :=
  {| status_code := 200; text := "<html>"; json := None |}.

Definition html_env : Env :=
  env_with scenario_secrets (Responded not_json) (Responded not_json).

(** A token endpoint that works and a quote-token endpoint that refuses. *)
Definition half_env : Env :=
  env_with scenario_secrets (ok_reply scenario_token_body) denied.

(** An environment without a secrets file. *)
Definition no_file_env : Env :=
  {| secrets := NoSecretsFile;
     clock := fun n => 1000 + Z.of_nat n;
     http := answering (ok_reply scenario_token_body)
               (ok_reply scenario_quote_body) |}.

(** A token endpoint whose [expires_in] is an integer beyond the floats. *)
Definition huge_ttl_body : value :=
  VDict [("access_token", VStr "AT1"); ("expires_in", VNum (2 ^ 1024))].

Definition huge_ttl_env : Env :=
  env_with scenario_secrets
    (ok_reply huge_ttl_body) (ok_reply scenario_quote_body).

(** A session state whose access slot is a dict without ["expires_at"]. *)
Definition poisoned : World :=
  world_of {[ "access_token_data" := VDict [("access_token", old_access)] ]}.

(** * Basic facts *)

Ltac py_unfold :=
  unfold run, mbind, Py_bind, mret, Py_ret, raise, try_except,
    session_contains, session_read, session_write, time_time,
    requests_post, requests_get, send, response_json, subscript, dict_get,
    gt_float, float_add, secret in *.

Ltac py_simpl := repeat (progress (cbn; py_unfold)).

Lemma cached_access_forced e w :
  run (cached_access_token true) e w = (Ok None, w).
Proof. reflexivity. Qed.

Lemma cached_streamer_forced e w :
  run (cached_streamer_token true) e w = (Ok None, w).
Proof. reflexivity. Qed.

(** [load_credentials] neither changes nor consults the world. *)
Lemma load_credentials_world e w :
  run load_credentials e w =
    (fst (run load_credentials e {| session_state := ∅; ticks := O; sent := [] |}), w).
Proof.
  unfold load_credentials. py_unfold.
  destruct (secrets e) as [| s]; [reflexivity |].
  repeat (destruct (s !! _); cbn; try reflexivity).
Qed.

Lemma load_credentials_present e w a b c :
  secrets e !! "CLIENT_ID" = Some a ->
  secrets e !! "CLIENT_SECRET" = Some b ->
  secrets e !! "REFRESH_TOKEN" = Some c ->
  run load_credentials e w =
    (Ok {| client_id := a; client_secret := b; refresh_token := c |}, w).
Proof.
  intros Ha Hb Hc. unfold load_credentials. py_unfold.
  destruct (secrets e) as [| s]; [discriminate |].
  change (s !! "CLIENT_ID" = Some a) in Ha.
  change (s !! "CLIENT_SECRET" = Some b) in Hb.
  change (s !! "REFRESH_TOKEN" = Some c) in Hc.
  rewrite Ha, Hb, Hc. reflexivity.
Qed.

(** A secrets file that lacks one of the three keys. *)
Lemma load_credentials_absent e w s :
  secrets e = SecretsFile s ->
  s !! "CLIENT_ID" = None \/
  s !! "CLIENT_SECRET" = None \/
  s !! "REFRESH_TOKEN" = None ->
  run load_credentials e w = (Raise (ValueError missing_secrets), w).
Proof.
  intros Hf H. unfold load_credentials. py_unfold. rewrite Hf.
  destruct (s !! "CLIENT_ID"); cbn;
    [destruct (s !! "CLIENT_SECRET"); cbn;
       [destruct (s !! "REFRESH_TOKEN"); cbn |] |];
    try reflexivity.
  destruct H as [H | [H | H]]; discriminate.
Qed.

(** No secrets file: the error of [st.secrets] is not a [KeyError] and
    passes the handler. *)
Lemma load_credentials_no_file e w :
  secrets e = NoSecretsFile ->
  run load_credentials e w = (Raise StreamlitSecretNotFoundError, w).
Proof.
  intros Hf. unfold load_credentials. py_unfold. rewrite Hf. reflexivity.
Qed.

Lemma load_credentials_cases e w :
  (exists c, run load_credentials e w = (Ok c, w)) \/
  (exists x, run load_credentials e w = (Raise x, w)).
Proof.
  rewrite (load_credentials_world e w).
  destruct (fst (run load_credentials e _)) as [c | x]; eauto.
Qed.

Lemma refresh_access_token_run e w :
  run refresh_access_token e w =
    match run load_credentials e w with
    | (Ok c, _) => access_exchange e w c
    | (Raise x, _) => (Raise x, w)
    end.
Proof.
  destruct (load_credentials_cases e w) as [[c Hc] | [x Hc]]; rewrite Hc.
  - unfold refresh_access_token, access_exchange.
    unfold run, mbind, Py_bind in *. rewrite Hc.
    py_unfold. cbn.
    destruct (http e (sent w) _) as [r |]; [| reflexivity].
    destruct (status_code r =? 200); cbn; [| reflexivity].
    destruct (json r) as [[] |]; cbn; try reflexivity.
    destruct (assoc "access_token" d); cbn; [| reflexivity].
    destruct (as_number _); [| reflexivity].
    destruct (float_of_int_overflows _); reflexivity.
  - unfold refresh_access_token. unfold run, mbind, Py_bind in *.
    rewrite Hc. reflexivity.
Qed.

Lemma request_streamer_token_run e w access_token :
  run (request_streamer_token access_token) e w =
    quote_exchange e w access_token.
Proof.
  unfold request_streamer_token, quote_exchange. py_unfold.
  unfold quote_request. cbn.
  destruct (http e (sent w) _) as [r |]; [| reflexivity].
  destruct (status_code r =? 200); cbn; [| reflexivity].
  destruct (json r) as [[| b | n | s | l | d] |]; cbn; try reflexivity.
  destruct (assoc "data" d) as [[| b | n | s | l | d'] |]; cbn;
    try reflexivity.
  destruct (assoc "token" d'); reflexivity.
Qed.

Lemma refresh_streamer_token_run e w access_token :
  run (refresh_streamer_token access_token) e w =
    match run (resolve_access_token access_token) e w with
    | (Ok a, w1) => quote_exchange e w1 a
    | (Raise x, w1) => (Raise x, w1)
    end.
Proof.
  unfold refresh_streamer_token, run, mbind at 1, Py_bind at 1.
  destruct (resolve_access_token access_token e w) as [[a | x] w1];
    [apply request_streamer_token_run | reflexivity].
Qed.

Lemma resolve_access_token_supplied e w a :
  a <> VNone -> run (resolve_access_token a) e w = (Ok a, w).
Proof. destruct a; intros H; try reflexivity. contradiction. Qed.

Lemma get_access_token_run force_refresh e w :
  run (get_access_token force_refresh) e w =
    match run (cached_access_token force_refresh) e w with
    | (Ok (Some tok), w1) => (Ok tok, w1)
    | (Ok None, w1) => run refresh_access_token e w1
    | (Raise x, w1) => (Raise x, w1)
    end.
Proof.
  unfold get_access_token, run, mbind at 1, Py_bind at 1.
  destruct (cached_access_token force_refresh e w) as [[[tok |] | x] w1];
    reflexivity.
Qed.

Lemma get_streamer_token_run access_token force_refresh e w :
  run (get_streamer_token access_token force_refresh) e w =
    match run (cached_streamer_token force_refresh) e w with
    | (Ok (Some tok), w1) => (Ok tok, w1)
    | (Ok None, w1) => run (refresh_streamer_token access_token) e w1
    | (Raise x, w1) => (Raise x, w1)
    end.
Proof.
  unfold get_streamer_token, run, mbind at 1, Py_bind at 1.
  destruct (cached_streamer_token force_refresh e w) as [[[tok |] | x] w1];
    reflexivity.
Qed.

Lemma cached_access_token_run e w :
  run (cached_access_token false) e w =
    probe "access_token_data" "access_token" 60 e w.
Proof.
  unfold cached_access_token, probe. py_unfold.
  destruct (session_state w !! "access_token_data")
    as [[| b | n | s | l | d] |] eqn:H; py_simpl; rewrite ?H; py_simpl;
    try reflexivity.
  destruct (assoc "expires_at" d) as [x |]; py_simpl; [| reflexivity].
  destruct (as_number x); py_simpl; [| reflexivity].
  destruct (_ <? _); py_simpl; [| reflexivity].
  destruct (assoc "access_token" d); reflexivity.
Qed.

Lemma cached_streamer_token_run e w :
  run (cached_streamer_token false) e w =
    probe "streamer_token_data" "token" 300 e w.
Proof.
  unfold cached_streamer_token, probe. py_unfold.
  destruct (session_state w !! "streamer_token_data")
    as [[| b | n | s | l | d] |] eqn:H; py_simpl; rewrite ?H; py_simpl;
    try reflexivity.
  destruct (assoc "expires_at" d) as [x |]; py_simpl; [| reflexivity].
  destruct (as_number x); py_simpl; [| reflexivity].
  destruct (_ <? _); py_simpl; [| reflexivity].
  destruct (assoc "token" d); reflexivity.
Qed.

Lemma probe_world key field margin e w r w1 :
  probe key field margin e w = (r, w1) -> w1 = w \/ w1 = tick w.
Proof.
  unfold probe. repeat case_match; intros [= _ <-]; auto.
Qed.

Lemma cached_access_token_world force_refresh e w r w1 :
  run (cached_access_token force_refresh) e w = (r, w1) ->
  w1 = w \/ w1 = tick w.
Proof.
  destruct force_refresh.
  - rewrite cached_access_forced. intros [= _ <-]. auto.
  - rewrite cached_access_token_run. apply probe_world.
Qed.

Lemma cached_streamer_token_world force_refresh e w r w1 :
  run (cached_streamer_token force_refresh) e w = (r, w1) ->
  w1 = w \/ w1 = tick w.
Proof.
  destruct force_refresh.
  - rewrite cached_streamer_forced. intros [= _ <-]. auto.
  - rewrite cached_streamer_token_run. apply probe_world.
Qed.

(** * Effects of the two acquisitions *)

(** What an access-token refresh does to the world: it raises and leaves
    the session state alone, having sent nothing or the one token request,
    or it returns the token it has just stored. *)
Lemma access_exchange_effect e w c r w' :
  access_exchange e w c = (r, w') ->
  sent w' = sent w ++ [token_request c] /\
  ((exists x, r = Raise x /\ session_state w' = session_state w) \/
   (exists tok ttl, r = Ok tok /\
      w' = with_session
             (insert "access_token_data"
                (access_entry tok (float_sum (clock e (ticks w)) ttl)))
             (tick (record (token_request c) w)))).
Proof.
  unfold access_exchange.
  repeat case_match; intros [= <- <-]; (split; [reflexivity |]); eauto.
Qed.

Lemma refresh_access_token_effect e w r w' :
  run refresh_access_token e w = (r, w') ->
  ((exists x, r = Raise x) /\ w' = w) \/
  (exists c, run load_credentials e w = (Ok c, w) /\
     access_exchange e w c = (r, w')).
Proof.
  rewrite refresh_access_token_run.
  destruct (load_credentials_cases e w) as [[c Hc] | [x Hc]]; rewrite Hc.
  - eauto.
  - intros [= <- <-]. eauto.
Qed.

Lemma app_singleton_neq {A} (l : list A) (x : A) : l ++ [x] <> l.
Proof.
  intros H. apply (f_equal (@List.length A)) in H.
  rewrite length_app in H. cbn in H. lia.
Qed.

Lemma app_app_singleton_neq {A} (l l' : list A) (x : A) :
  (l ++ l') ++ [x] <> l.
Proof.
  intros H. apply (f_equal (@List.length A)) in H.
  rewrite !length_app in H. cbn in H. lia.
Qed.

(** A successful refresh has put a request on the wire. *)
Lemma refresh_access_token_ok_sent e w tok w' :
  run refresh_access_token e w = (Ok tok, w') -> sent w' <> sent w.
Proof.
  intros H. apply refresh_access_token_effect in H as [[[x H] _] | [c [_ H]]].
  - discriminate.
  - apply access_exchange_effect in H as [-> _]. apply app_singleton_neq.
Qed.

Lemma get_access_token_sent force_refresh e w r w' :
  run (get_access_token force_refresh) e w = (r, w') ->
  sent w' = sent w \/ exists c, sent w' = sent w ++ [token_request c].
Proof.
  rewrite get_access_token_run.
  destruct (run (cached_access_token force_refresh) e w)
    as [[[tok |] | x] w1] eqn:Hp;
    pose proof (cached_access_token_world _ _ _ _ _ Hp) as Hw.
  - intros [= <- <-]. left. destruct Hw as [-> | ->]; reflexivity.
  - intros H.
    assert (Hs : sent w1 = sent w) by (destruct Hw as [-> | ->]; reflexivity).
    rewrite <- Hs.
    apply refresh_access_token_effect in H as [[_ ->] | [c [_ H]]];
      [auto |].
    apply access_exchange_effect in H as [-> _]. eauto.
  - intros [= <- <-]. left. destruct Hw as [-> | ->]; reflexivity.
Qed.

Lemma quote_exchange_effect e w a r w' :
  quote_exchange e w a = (r, w') ->
  sent w' = sent w ++ [quote_request a] /\
  ((exists x, r = Raise x /\ session_state w' = session_state w) \/
   (exists tok, r = Ok tok /\
      w' = with_session
             (insert "streamer_token_data"
                (streamer_entry tok (clock e (ticks w) + 72000)))
             (tick (record (quote_request a) w)))).
Proof.
  unfold quote_exchange.
  repeat case_match; intros [= <- <-]; (split; [reflexivity |]); eauto.
Qed.

Lemma resolve_access_token_sent a e w r w' :
  run (resolve_access_token a) e w = (r, w') ->
  sent w' = sent w \/ exists c, sent w' = sent w ++ [token_request c].
Proof.
  destruct a; try (intros [= _ <-]; auto).
  apply get_access_token_sent.
Qed.

Lemma refresh_streamer_token_ok_sent a e w tok w' :
  run (refresh_streamer_token a) e w = (Ok tok, w') -> sent w' <> sent w.
Proof.
  rewrite refresh_streamer_token_run.
  destruct (run (resolve_access_token a) e w) as [[a' | x] w1] eqn:Ha;
    [| discriminate].
  intros H. apply quote_exchange_effect in H as [-> _].
  apply resolve_access_token_sent in Ha as [-> | [c ->]].
  - apply app_singleton_neq.
  - apply app_app_singleton_neq.
Qed.

(** The session state after a call to [get_access_token]: untouched when
    the call raises, and changed in the access slot at most. *)
Lemma get_access_token_session force_refresh e w r w' :
  run (get_access_token force_refresh) e w = (r, w') ->
  session_state w' = session_state w \/
  exists tok exp, r = Ok tok /\
    session_state w' =
      <["access_token_data" := access_entry tok exp]> (session_state w).
Proof.
  rewrite get_access_token_run.
  destruct (run (cached_access_token force_refresh) e w)
    as [[[tok |] | x] w1] eqn:Hp;
    pose proof (cached_access_token_world _ _ _ _ _ Hp) as Hw;
    assert (Hs : session_state w1 = session_state w)
      by (destruct Hw as [-> | ->]; reflexivity).
  - intros [= <- <-]. auto.
  - intros H. rewrite <- Hs.
    apply refresh_access_token_effect in H as [[_ ->] | [c [_ H]]]; [auto |].
    apply access_exchange_effect in H
      as [_ [[x [-> ->]] | [tok [ttl [-> ->]]]]]; [auto |].
    right. eauto.
  - intros [= <- <-]. auto.
Qed.

Lemma get_access_token_raise force_refresh e w x w' :
  run (get_access_token force_refresh) e w = (Raise x, w') ->
  session_state w' = session_state w.
Proof.
  intros H. apply get_access_token_session in H as [H | [tok [exp [H _]]]];
    [assumption | discriminate].
Qed.

Lemma get_access_token_frame force_refresh e w r w' k :
  run (get_access_token force_refresh) e w = (r, w') ->
  k <> "access_token_data" ->
  session_state w' !! k = session_state w !! k.
Proof.
  intros H Hk. apply get_access_token_session in H as [-> | [tok [exp [_ ->]]]];
    [reflexivity |].
  apply lookup_insert_ne. congruence.
Qed.

Lemma resolve_access_token_frame a e w r w' k :
  run (resolve_access_token a) e w = (r, w') ->
  k <> "access_token_data" ->
  session_state w' !! k = session_state w !! k.
Proof.
  destruct a; try (intros [= _ <-]; reflexivity).
  apply get_access_token_frame.
Qed.

(** The session state after a call to [get_streamer_token]: the streamer
    slot is untouched when the call raises, and a call that was handed an
    access token changes the streamer slot at most. *)
Lemma get_streamer_token_raise a force_refresh e w x w' :
  run (get_streamer_token a force_refresh) e w = (Raise x, w') ->
  session_state w' !! "streamer_token_data" =
    session_state w !! "streamer_token_data".
Proof.
  rewrite get_streamer_token_run.
  destruct (run (cached_streamer_token force_refresh) e w)
    as [[[tok |] | x0] w1] eqn:Hp;
    pose proof (cached_streamer_token_world _ _ _ _ _ Hp) as Hw;
    assert (Hs : session_state w1 = session_state w)
      by (destruct Hw as [-> | ->]; reflexivity).
  - discriminate.
  - rewrite refresh_streamer_token_run. rewrite <- Hs.
    destruct (run (resolve_access_token a) e w1) as [[a' | x1] w2] eqn:Ha.
    + intros H. apply quote_exchange_effect in H
        as [_ [[x1 [_ ->]] | [tok [? _]]]]; [| discriminate].
      eapply resolve_access_token_frame; [eassumption | discriminate].
    + intros [= <- <-].
      eapply resolve_access_token_frame; [eassumption | discriminate].
  - intros [= <- <-]. rewrite Hs. reflexivity.
Qed.

Lemma get_streamer_token_frame a force_refresh e w r w' k :
  a <> VNone ->
  run (get_streamer_token a force_refresh) e w = (r, w') ->
  k <> "streamer_token_data" ->
  session_state w' !! k = session_state w !! k.
Proof.
  intros Ha H Hk. revert H. rewrite get_streamer_token_run.
  destruct (run (cached_streamer_token force_refresh) e w)
    as [[[tok |] | x0] w1] eqn:Hp;
    pose proof (cached_streamer_token_world _ _ _ _ _ Hp) as Hw;
    assert (Hs : session_state w1 = session_state w)
      by (destruct Hw as [-> | ->]; reflexivity).
  - intros [= <- <-]. rewrite Hs. reflexivity.
  - rewrite refresh_streamer_token_run,
      (resolve_access_token_supplied _ _ _ Ha). rewrite <- Hs.
    intros H. apply quote_exchange_effect in H
      as [_ [[x1 [_ ->]] | [tok [_ ->]]]]; [reflexivity |].
    cbn. apply lookup_insert_ne. congruence.
  - intros [= <- <-]. rewrite Hs. reflexivity.
Qed.

(** The two acquisitions, once the cache probe has fallen through. *)
Lemma load_credentials_any e w w1 c :
  run load_credentials e w = (Ok c, w) ->
  run load_credentials e w1 = (Ok c, w1).
Proof.
  rewrite (load_credentials_world e w), (load_credentials_world e w1).
  intros [= ->]. reflexivity.
Qed.

Lemma get_access_token_exchange force_refresh e w w1 c :
  run (cached_access_token force_refresh) e w = (Ok None, w1) ->
  run load_credentials e w = (Ok c, w) ->
  run (get_access_token force_refresh) e w = access_exchange e w1 c /\
  session_state w1 = session_state w /\ sent w1 = sent w.
Proof.
  intros Hp Hc. rewrite get_access_token_run, Hp, refresh_access_token_run.
  rewrite (load_credentials_any _ _ w1 _ Hc).
  apply cached_access_token_world in Hp as [-> | ->]; auto.
Qed.

Lemma get_streamer_token_exchange a force_refresh e w w1 a' w2 :
  run (cached_streamer_token force_refresh) e w = (Ok None, w1) ->
  run (resolve_access_token a) e w1 = (Ok a', w2) ->
  run (get_streamer_token a force_refresh) e w = quote_exchange e w2 a' /\
  session_state w2 !! "streamer_token_data" =
    session_state w !! "streamer_token_data" /\
  (sent w2 = sent w \/ exists c, sent w2 = sent w ++ [token_request c]).
Proof.
  intros Hp Ha.
  rewrite get_streamer_token_run, Hp, refresh_streamer_token_run, Ha.
  split; [reflexivity |].
  assert (Hw : session_state w1 = session_state w /\ sent w1 = sent w)
    by (apply cached_streamer_token_world in Hp as [-> | ->]; auto).
  destruct Hw as [Hs Hn]. rewrite <- Hs, <- Hn. split.
  - eapply resolve_access_token_frame; [eassumption | discriminate].
  - eapply resolve_access_token_sent; eassumption.
Qed.

Lemma access_exchange_failure e w c r :
  http e (sent w) (token_request c) = Responded r ->
  status_code r <> 200 ->
  access_exchange e w c =
    (Raise (Exception ("Token error: " +:+ text r)),
     record (token_request c) w).
Proof.
  intros Hr Hs. unfold access_exchange. rewrite Hr.
  apply Z.eqb_neq in Hs. rewrite Hs. reflexivity.
Qed.

Lemma quote_exchange_failure e w a r :
  http e (sent w) (quote_request a) = Responded r ->
  status_code r <> 200 ->
  quote_exchange e w a =
    (Raise (Exception ("Streamer token error: " +:+ text r)),
     record (quote_request a) w).
Proof.
  intros Hr Hs. unfold quote_exchange. rewrite Hr.
  apply Z.eqb_neq in Hs. rewrite Hs. reflexivity.
Qed.

(** Below 2^53 the conversion and the sum are exact. *)
Lemma round_double_small z : Z.abs z < 2 ^ 53 -> round_double z = z.
Proof.
  intros H. unfold round_double. apply Z.ltb_lt in H. rewrite H. reflexivity.
Qed.

Lemma float_sum_exact t n :
  Z.abs n < 2 ^ 53 -> Z.abs (t + n) < 2 ^ 53 -> float_sum t n = t + n.
Proof.
  intros Hn Hs. unfold float_sum.
  rewrite (round_double_small n Hn). apply round_double_small, Hs.
Qed.

Lemma float_of_int_small n :
  Z.abs n < 2 ^ 53 -> float_of_int_overflows n = false.
Proof.
  intros Hn. unfold float_of_int_overflows.
  rewrite (round_double_small n Hn). apply Z.leb_gt.
  eapply Z.lt_trans; [exact Hn |]. reflexivity.
Qed.

(** The conversion at work: a tie goes to the even double, and the
    first integer that does not convert is 2^1024 - 2^970. *)
Lemma float_sum_ties_to_even : float_sum 1001 (2 ^ 53) = 2 ^ 53 + 1000.
Proof. vm_compute. reflexivity. Qed.

Lemma float_of_int_threshold :
  float_of_int_overflows (2 ^ 1024 - 2 ^ 970 - 1) = false /\
  float_of_int_overflows (2 ^ 1024 - 2 ^ 970) = true /\
  float_of_int_overflows (10 ^ 400) = true.
Proof. repeat split; vm_compute; reflexivity. Qed.

Lemma access_exchange_success e w c r d tok ttl :
  http e (sent w) (token_request c) = Responded r ->
  status_code r = 200 ->
  json r = Some (VDict d) ->
  assoc "access_token" d = Some tok ->
  as_number (default (VNum 900) (assoc "expires_in" d)) = Some ttl ->
  float_of_int_overflows ttl = false ->
  access_exchange e w c =
    (Ok tok,
     with_session
       (insert "access_token_data"
          (access_entry tok (float_sum (clock e (ticks w)) ttl)))
       (tick (record (token_request c) w))).
Proof.
  intros Hr Hs Hj Ht Hn Ho. unfold access_exchange.
  rewrite Hr, Hs, Hj, Ht, Hn, Ho. reflexivity.
Qed.

Lemma access_exchange_overflow e w c r d tok ttl :
  http e (sent w) (token_request c) = Responded r ->
  status_code r = 200 ->
  json r = Some (VDict d) ->
  assoc "access_token" d = Some tok ->
  as_number (default (VNum 900) (assoc "expires_in" d)) = Some ttl ->
  float_of_int_overflows ttl = true ->
  access_exchange e w c =
    (Raise OverflowError, tick (record (token_request c) w)).
Proof.
  intros Hr Hs Hj Ht Hn Ho. unfold access_exchange.
  rewrite Hr, Hs, Hj, Ht, Hn, Ho. reflexivity.
Qed.

Lemma quote_exchange_success e w a r d d' tok :
  http e (sent w) (quote_request a) = Responded r ->
  status_code r = 200 ->
  json r = Some (VDict d) ->
  assoc "data" d = Some (VDict d') ->
  assoc "token" d' = Some tok ->
  quote_exchange e w a =
    (Ok tok,
     with_session
       (insert "streamer_token_data"
          (streamer_entry tok (clock e (ticks w) + 72000)))
       (tick (record (quote_request a) w))).
Proof.
  intros Hr Hs Hj Hd Ht. unfold quote_exchange.
  rewrite Hr, Hs, Hj, Hd, Ht. reflexivity.
Qed.

Lemma same_view_tick P w1 w2 :
  same_view P w1 w2 -> same_view P (tick w1) (tick w2).
Proof. intros (Ht & Hs & Hk). repeat split; cbn; auto. Qed.

Lemma same_view_record P q w1 w2 :
  same_view P w1 w2 -> same_view P (record q w1) (record q w2).
Proof. intros (Ht & Hs & Hk). repeat split; cbn; auto. congruence. Qed.

Lemma same_view_insert P k v w1 w2 :
  same_view P w1 w2 ->
  same_view P (with_session (insert k v) w1) (with_session (insert k v) w2).
Proof.
  intros (Ht & Hs & Hk). repeat split; cbn; auto.
  intros k' Hk'. rewrite !lookup_insert. case_decide; auto.
Qed.

Lemma probe_view P key field margin e w1 w2 :
  P key -> same_view P w1 w2 ->
  fst (probe key field margin e w1) = fst (probe key field margin e w2) /\
  same_view P (snd (probe key field margin e w1))
              (snd (probe key field margin e w2)).
Proof.
  intros HP Hv. pose proof (same_view_tick _ _ _ Hv) as Hvt.
  destruct Hv as (Ht & Hs & Hk). unfold probe.
  rewrite (Hk key HP), Ht.
  repeat case_match; cbn; (split; [reflexivity |]); auto;
    repeat split; auto.
Qed.

Lemma access_exchange_view P e c w1 w2 :
  same_view P w1 w2 ->
  fst (access_exchange e w1 c) = fst (access_exchange e w2 c) /\
  same_view P (snd (access_exchange e w1 c)) (snd (access_exchange e w2 c)).
Proof.
  intros Hv.
  pose proof (same_view_record _ (token_request c) _ _ Hv) as Hvr.
  pose proof (same_view_tick _ _ _ Hvr) as Hvt.
  pose proof (fun v => same_view_insert _ "access_token_data" v _ _ Hvt)
    as Hvi.
  destruct Hv as (Ht & Hs & Hk). unfold access_exchange.
  rewrite Hs, Ht.
  repeat case_match; cbn; (split; [reflexivity |]); auto.
Qed.

Lemma quote_exchange_view P e a w1 w2 :
  same_view P w1 w2 ->
  fst (quote_exchange e w1 a) = fst (quote_exchange e w2 a) /\
  same_view P (snd (quote_exchange e w1 a)) (snd (quote_exchange e w2 a)).
Proof.
  intros Hv.
  pose proof (same_view_record _ (quote_request a) _ _ Hv) as Hvr.
  pose proof (same_view_tick _ _ _ Hvr) as Hvt.
  pose proof (fun v => same_view_insert _ "streamer_token_data" v _ _ Hvt)
    as Hvi.
  destruct Hv as (Ht & Hs & Hk). unfold quote_exchange.
  rewrite Hs, Ht.
  repeat case_match; cbn; (split; [reflexivity |]); auto.
Qed.

Lemma refresh_access_token_view P e w1 w2 :
  same_view P w1 w2 ->
  fst (run refresh_access_token e w1) = fst (run refresh_access_token e w2) /\
  same_view P (snd (run refresh_access_token e w1))
              (snd (run refresh_access_token e w2)).
Proof.
  intros Hv. rewrite !refresh_access_token_run.
  rewrite (load_credentials_world e w1), (load_credentials_world e w2).
  cbn. destruct (fst (run load_credentials e _)) as [c | x].
  - apply access_exchange_view, Hv.
  - split; [reflexivity | exact Hv].
Qed.

(** [get_access_token] sees the world through the access slot only. *)
Lemma get_access_token_view P force_refresh e w1 w2 :
  P "access_token_data" -> same_view P w1 w2 ->
  fst (run (get_access_token force_refresh) e w1) =
    fst (run (get_access_token force_refresh) e w2) /\
  same_view P (snd (run (get_access_token force_refresh) e w1))
              (snd (run (get_access_token force_refresh) e w2)).
Proof.
  intros HP Hv. rewrite !get_access_token_run.
  assert (Hp : fst (run (cached_access_token force_refresh) e w1) =
               fst (run (cached_access_token force_refresh) e w2) /\
               same_view P (snd (run (cached_access_token force_refresh) e w1))
                 (snd (run (cached_access_token force_refresh) e w2))).
  { destruct force_refresh.
    - rewrite !cached_access_forced. split; [reflexivity | exact Hv].
    - rewrite !cached_access_token_run. apply probe_view; assumption. }
  destruct (run (cached_access_token force_refresh) e w1) as [r1 u1].
  destruct (run (cached_access_token force_refresh) e w2) as [r2 u2].
  cbn in Hp. destruct Hp as [<- Hu].
  destruct r1 as [[tok |] | x]; cbn; auto.
  apply refresh_access_token_view, Hu.
Qed.

(** [get_streamer_token], handed an access token, sees the world through
    the streamer slot only. *)
Lemma get_streamer_token_view P a force_refresh e w1 w2 :
  a <> VNone -> P "streamer_token_data" -> same_view P w1 w2 ->
  fst (run (get_streamer_token a force_refresh) e w1) =
    fst (run (get_streamer_token a force_refresh) e w2) /\
  same_view P (snd (run (get_streamer_token a force_refresh) e w1))
              (snd (run (get_streamer_token a force_refresh) e w2)).
Proof.
  intros Ha HP Hv. rewrite !get_streamer_token_run.
  assert (Hp : fst (run (cached_streamer_token force_refresh) e w1) =
               fst (run (cached_streamer_token force_refresh) e w2) /\
               same_view P
                 (snd (run (cached_streamer_token force_refresh) e w1))
                 (snd (run (cached_streamer_token force_refresh) e w2))).
  { destruct force_refresh.
    - rewrite !cached_streamer_forced. split; [reflexivity | exact Hv].
    - rewrite !cached_streamer_token_run. apply probe_view; assumption. }
  destruct (run (cached_streamer_token force_refresh) e w1) as [r1 u1].
  destruct (run (cached_streamer_token force_refresh) e w2) as [r2 u2].
  cbn in Hp. destruct Hp as [<- Hu].
  destruct r1 as [[tok |] | x]; cbn; auto.
  rewrite !refresh_streamer_token_run.
  rewrite !(resolve_access_token_supplied _ _ _ Ha).
  apply quote_exchange_view, Hu.
Qed.

Lemma probe_access_entry e w tok exp :
  session_state w !! "access_token_data" = Some (access_entry tok exp) ->
  run (cached_access_token false) e w =
    (Ok (if clock e (ticks w) + 60 <? exp then Some tok else None), tick w).
Proof.
  intros H. rewrite cached_access_token_run. unfold probe. rewrite H. cbn.
  destruct (_ <? _); reflexivity.
Qed.

Lemma probe_streamer_entry e w tok exp :
  session_state w !! "streamer_token_data" = Some (streamer_entry tok exp) ->
  run (cached_streamer_token false) e w =
    (Ok (if clock e (ticks w) + 300 <? exp then Some tok else None), tick w).
Proof.
  intros H. rewrite cached_streamer_token_run. unfold probe. rewrite H. cbn.
  destruct (_ <? _); reflexivity.
Qed.

Lemma cached_access_absent e w :
  session_state w !! "access_token_data" = None ->
  run (cached_access_token false) e w = (Ok None, w).
Proof.
  intros H. rewrite cached_access_token_run. unfold probe. rewrite H.
  reflexivity.
Qed.

Lemma cached_streamer_absent e w :
  session_state w !! "streamer_token_data" = None ->
  run (cached_streamer_token false) e w = (Ok None, w).
Proof.
  intros H. rewrite cached_streamer_token_run. unfold probe. rewrite H.
  reflexivity.
Qed.

Lemma get_access_token_hit e w tok exp :
  session_state w !! "access_token_data" = Some (access_entry tok exp) ->
  clock e (ticks w) + 60 < exp ->
  run (get_access_token false) e w = (Ok tok, tick w).
Proof.
  intros H Hlt. rewrite get_access_token_run, (probe_access_entry _ _ _ _ H).
  apply Z.ltb_lt in Hlt. rewrite Hlt. reflexivity.
Qed.

Lemma get_access_token_stale e w tok exp :
  session_state w !! "access_token_data" = Some (access_entry tok exp) ->
  exp <= clock e (ticks w) + 60 ->
  run (get_access_token false) e w = run refresh_access_token e (tick w).
Proof.
  intros H Hle. rewrite get_access_token_run, (probe_access_entry _ _ _ _ H).
  apply Z.ltb_ge in Hle. rewrite Hle. reflexivity.
Qed.

Lemma get_streamer_token_hit a e w tok exp :
  session_state w !! "streamer_token_data" = Some (streamer_entry tok exp) ->
  clock e (ticks w) + 300 < exp ->
  run (get_streamer_token a false) e w = (Ok tok, tick w).
Proof.
  intros H Hlt.
  rewrite get_streamer_token_run, (probe_streamer_entry _ _ _ _ H).
  apply Z.ltb_lt in Hlt. rewrite Hlt. reflexivity.
Qed.

Lemma get_streamer_token_stale a e w tok exp :
  session_state w !! "streamer_token_data" = Some (streamer_entry tok exp) ->
  exp <= clock e (ticks w) + 300 ->
  run (get_streamer_token a false) e w =
    run (refresh_streamer_token a) e (tick w).
Proof.
  intros H Hle.
  rewrite get_streamer_token_run, (probe_streamer_entry _ _ _ _ H).
  apply Z.ltb_ge in Hle. rewrite Hle. reflexivity.
Qed.

(** * The claims *)

(** C1 (freshness boundary).  With [force_refresh = False] and a cached
    entry [{token, expires_at}] in the slot of the kind, the access
    acquisition returns the cached token with no request sent exactly when
    [expires_at > now + 60], and otherwise runs the refresh: with the
    credentials configured the token request goes out.  The streamer
    acquisition does the same with 300 seconds, whatever access token it
    is given: on a stale entry the quote-token request goes out once the
    access token is resolved, bearing the supplied token when there is
    one.  In particular [expires_at = now + 61] (resp. [now + 301]) is
    served from the cache and [now + 59] (resp. [now + 299]) goes to the
    refresh and its request.  [now] is the clock reading the call takes. *)
Theorem freshness_boundary :
  (forall e w tok exp,
     session_state w !! "access_token_data" = Some (access_entry tok exp) ->
     let now := clock e (ticks w) in
     let call := run (get_access_token false) e w in
     (now + 60 < exp -> call = (Ok tok, tick w)) /\
     (exp <= now + 60 -> call = run refresh_access_token e (tick w)) /\
     ((exists w', call = (Ok tok, w') /\ sent w' = sent w) <-> now + 60 < exp) /\
     (exp = now + 61 -> call = (Ok tok, tick w)) /\
     (exp = now + 59 -> call = run refresh_access_token e (tick w)) /\
     (forall c, run load_credentials e w = (Ok c, w) ->
        (exp <= now + 60 ->
         exists r w', call = (r, w') /\
           sent w' = sent w ++ [token_request c]) /\
        (exp = now + 59 ->
         exists r w', call = (r, w') /\
           sent w' = sent w ++ [token_request c])))
  /\
  (forall e w a tok exp,
     session_state w !! "streamer_token_data" = Some (streamer_entry tok exp) ->
     let now := clock e (ticks w) in
     let call := run (get_streamer_token a false) e w in
     (now + 300 < exp -> call = (Ok tok, tick w)) /\
     (exp <= now + 300 -> call = run (refresh_streamer_token a) e (tick w)) /\
     ((exists w', call = (Ok tok, w') /\ sent w' = sent w) <-> now + 300 < exp) /\
     (exp = now + 301 -> call = (Ok tok, tick w)) /\
     (exp = now + 299 -> call = run (refresh_streamer_token a) e (tick w)) /\
     (forall a' w2,
        run (resolve_access_token a) e (tick w) = (Ok a', w2) ->
        (exp <= now + 300 ->
         exists r w', call = (r, w') /\
           sent w' = sent w2 ++ [quote_request a']) /\
        (exp = now + 299 ->
         exists r w', call = (r, w') /\
           sent w' = sent w2 ++ [quote_request a'])) /\
     (a <> VNone -> exp <= now + 300 ->
      exists r w', call = (r, w') /\ sent w' = sent w ++ [quote_request a])).
Proof.
  split.
  - intros e w tok exp H now call.
    pose proof (get_access_token_hit e w tok exp H) as Hfresh.
    pose proof (get_access_token_stale e w tok exp H) as Hstale.
    fold now call in Hfresh, Hstale.
    assert (Hreq : forall c, run load_credentials e w = (Ok c, w) ->
              exp <= now + 60 ->
              exists r w', call = (r, w') /\
                sent w' = sent w ++ [token_request c]).
    { intros c Hc Hle. rewrite (Hstale Hle), refresh_access_token_run.
      rewrite (load_credentials_any e w (tick w) c Hc).
      destruct (access_exchange e (tick w) c) as [r w'] eqn:Hx.
      exists r, w'. split; [reflexivity |].
      apply access_exchange_effect in Hx as [Hx _]. exact Hx. }
    split; [exact Hfresh |]. split; [exact Hstale |]. split; [split |].
    + intros [w' [Hc Hs]]. destruct (Z.lt_ge_cases (now + 60) exp) as [|Hle];
        [assumption |].
      rewrite (Hstale Hle) in Hc.
      apply refresh_access_token_ok_sent in Hc. cbn in Hc. contradiction.
    + intros Hlt. exists (tick w). split; [auto | reflexivity].
    + split; [intros; apply Hfresh; lia |].
      split; [intros; apply Hstale; lia |].
      intros c Hc. split; [apply Hreq, Hc |].
      intros He. apply (Hreq c Hc). lia.
  - intros e w a tok exp H now call.
    pose proof (get_streamer_token_hit a e w tok exp H) as Hfresh.
    pose proof (get_streamer_token_stale a e w tok exp H) as Hstale.
    fold now call in Hfresh, Hstale.
    assert (Hreq : forall a' w2,
              run (resolve_access_token a) e (tick w) = (Ok a', w2) ->
              exp <= now + 300 ->
              exists r w', call = (r, w') /\
                sent w' = sent w2 ++ [quote_request a']).
    { intros a' w2 Ha Hle. rewrite (Hstale Hle), refresh_streamer_token_run, Ha.
      destruct (quote_exchange e w2 a') as [r w'] eqn:Hx.
      exists r, w'. split; [reflexivity |].
      apply quote_exchange_effect in Hx as [Hx _]. exact Hx. }
    split; [exact Hfresh |]. split; [exact Hstale |]. split; [split |].
    + intros [w' [Hc Hs]]. destruct (Z.lt_ge_cases (now + 300) exp) as [|Hle];
        [assumption |].
      rewrite (Hstale Hle) in Hc.
      apply refresh_streamer_token_ok_sent in Hc. cbn in Hc. contradiction.
    + intros Hlt. exists (tick w). split; [auto | reflexivity].
    + split; [intros; apply Hfresh; lia |].
      split; [intros; apply Hstale; lia |].
      split.
      * intros a' w2 Ha. split; [apply Hreq, Ha |].
        intros He. apply (Hreq a' w2 Ha). lia.
      * intros Hne Hle.
        apply (Hreq a (tick w) (resolve_access_token_supplied e (tick w) a Hne)
                 Hle).
Qed.

(** C2 (a failed refresh preserves the cache).  When the token endpoint
    answers the refresh of [get_access_token] with a status other than 200,
    the call raises and the session state is what it was; when the
    quote-token endpoint answers [get_streamer_token] with a status other
    than 200, the call raises and the streamer slot is what it was.  More
    generally, no raising call of either acquisition changes the slot of
    its kind. *)
Theorem refresh_failure_preserves_cache :
  (forall force_refresh e w w1 c r,
     run (cached_access_token force_refresh) e w = (Ok None, w1) ->
     run load_credentials e w = (Ok c, w) ->
     http e (sent w) (token_request c) = Responded r ->
     status_code r <> 200 ->
     exists x w',
       run (get_access_token force_refresh) e w = (Raise x, w') /\
       session_state w' = session_state w)
  /\
  (forall a force_refresh e w w1 a' w2 r,
     run (cached_streamer_token force_refresh) e w = (Ok None, w1) ->
     run (resolve_access_token a) e w1 = (Ok a', w2) ->
     http e (sent w2) (quote_request a') = Responded r ->
     status_code r <> 200 ->
     exists x w',
       run (get_streamer_token a force_refresh) e w = (Raise x, w') /\
       session_state w' !! "streamer_token_data" =
         session_state w !! "streamer_token_data")
  /\
  (forall force_refresh e w x w',
     run (get_access_token force_refresh) e w = (Raise x, w') ->
     session_state w' !! "access_token_data" =
       session_state w !! "access_token_data")
  /\
  (forall a force_refresh e w x w',
     run (get_streamer_token a force_refresh) e w = (Raise x, w') ->
     session_state w' !! "streamer_token_data" =
       session_state w !! "streamer_token_data").
Proof.
  repeat split.
  - intros fr e w w1 c r Hp Hc Hr Hs.
    destruct (get_access_token_exchange _ _ _ _ _ Hp Hc) as [-> [Hss Hn]].
    rewrite <- Hn in Hr. rewrite (access_exchange_failure _ _ _ _ Hr Hs).
    eexists _, _. split; [reflexivity | exact Hss].
  - intros a fr e w w1 a' w2 r Hp Ha Hr Hs.
    destruct (get_streamer_token_exchange _ _ _ _ _ _ _ Hp Ha) as [-> [Hss _]].
    rewrite (quote_exchange_failure _ _ _ _ Hr Hs).
    eexists _, _. split; [reflexivity | exact Hss].
  - intros fr e w x w' H. apply get_access_token_raise in H. rewrite H.
    reflexivity.
  - intros a fr e w x w'. apply get_streamer_token_raise.
Qed.

(** C6 (non-success answers).  A status other than 200 from the token
    endpoint makes [get_access_token] raise [Exception] with the message
    "Token error: " followed by the response body, after exactly one
    request; a status other than 200 from the quote-token endpoint makes
    [get_streamer_token] raise [Exception] with "Streamer token error: "
    followed by the body, after exactly one quote-token request (preceded
    by at most the one token request of the nested access acquisition).
    Nothing is retried. *)
Theorem non_success_raises_with_body :
  (forall force_refresh e w w1 c r,
     run (cached_access_token force_refresh) e w = (Ok None, w1) ->
     run load_credentials e w = (Ok c, w) ->
     http e (sent w) (token_request c) = Responded r ->
     status_code r <> 200 ->
     exists w',
       run (get_access_token force_refresh) e w =
         (Raise (Exception ("Token error: " +:+ text r)), w') /\
       sent w' = sent w ++ [token_request c])
  /\
  (forall a force_refresh e w w1 a' w2 r,
     run (cached_streamer_token force_refresh) e w = (Ok None, w1) ->
     run (resolve_access_token a) e w1 = (Ok a', w2) ->
     http e (sent w2) (quote_request a') = Responded r ->
     status_code r <> 200 ->
     exists w',
       run (get_streamer_token a force_refresh) e w =
         (Raise (Exception ("Streamer token error: " +:+ text r)), w') /\
       (sent w' = sent w ++ [quote_request a'] \/
        exists c, sent w' = sent w ++ [token_request c; quote_request a']) /\
       (a <> VNone -> sent w' = sent w ++ [quote_request a])).
Proof.
  split.
  - intros fr e w w1 c r Hp Hc Hr Hs.
    destruct (get_access_token_exchange _ _ _ _ _ Hp Hc) as [-> [_ Hn]].
    rewrite <- Hn in Hr. rewrite (access_exchange_failure _ _ _ _ Hr Hs).
    eexists. split; [reflexivity |]. cbn. rewrite Hn. reflexivity.
  - intros a fr e w w1 a' w2 r Hp Ha Hr Hs.
    destruct (get_streamer_token_exchange _ _ _ _ _ _ _ Hp Ha) as [-> [_ Hn]].
    rewrite (quote_exchange_failure _ _ _ _ Hr Hs).
    eexists. split; [reflexivity |]. cbn. split.
    + destruct Hn as [-> | [c ->]]; [auto |].
      right. exists c. rewrite <- app_assoc. reflexivity.
    + intros Hne. rewrite (resolve_access_token_supplied _ _ _ Hne) in Ha.
      injection Ha as <- <-.
      apply cached_streamer_token_world in Hp as [-> | ->]; reflexivity.
Qed.

(** C3 (forced refresh).  With [force_refresh = True] the cache is not
    consulted at all: whatever the session state holds, the call is the
    refresh itself.  With the credentials configured, [get_access_token]
    sends the token request; with an access token resolved,
    [get_streamer_token] sends the quote-token request; and on a
    well-formed answer with status 200 the slot of the kind is overwritten
    with the new token and an [expires_at] computed from the clock reading
    taken after the answer: the float sum of the reading and [expires_in]
    (an [expires_in] too large for a float raises [OverflowError] and
    stores nothing), the reading plus 72000 for the streamer.  No forced
    call returns a token without having sent a request. *)
Theorem forced_refresh_bypasses_cache :
  (forall e w,
     run (get_access_token true) e w = run refresh_access_token e w)
  /\
  (forall e w c,
     run load_credentials e w = (Ok c, w) ->
     (exists r w', run (get_access_token true) e w = (r, w') /\
        sent w' = sent w ++ [token_request c]) /\
     (forall r d tok ttl,
        http e (sent w) (token_request c) = Responded r ->
        status_code r = 200 ->
        json r = Some (VDict d) ->
        assoc "access_token" d = Some tok ->
        as_number (default (VNum 900) (assoc "expires_in" d)) = Some ttl ->
        (float_of_int_overflows ttl = false ->
         exists w', run (get_access_token true) e w = (Ok tok, w') /\
           session_state w' =
             <["access_token_data" :=
                 access_entry tok (float_sum (clock e (ticks w)) ttl)]>
               (session_state w)) /\
        (Z.abs ttl < 2 ^ 53 -> Z.abs (clock e (ticks w) + ttl) < 2 ^ 53 ->
         exists w', run (get_access_token true) e w = (Ok tok, w') /\
           session_state w' =
             <["access_token_data" :=
                 access_entry tok (clock e (ticks w) + ttl)]>
               (session_state w)) /\
        (float_of_int_overflows ttl = true ->
         exists w', run (get_access_token true) e w = (Raise OverflowError, w')
           /\ session_state w' = session_state w)))
  /\
  (forall a e w,
     run (get_streamer_token a true) e w =
       run (refresh_streamer_token a) e w)
  /\
  (forall a e w a' w2,
     run (resolve_access_token a) e w = (Ok a', w2) ->
     (exists r w', run (get_streamer_token a true) e w = (r, w') /\
        sent w' = sent w2 ++ [quote_request a']) /\
     (forall r d d' tok,
        http e (sent w2) (quote_request a') = Responded r ->
        status_code r = 200 ->
        json r = Some (VDict d) ->
        assoc "data" d = Some (VDict d') ->
        assoc "token" d' = Some tok ->
        exists w', run (get_streamer_token a true) e w = (Ok tok, w') /\
          session_state w' =
            <["streamer_token_data" :=
                streamer_entry tok (clock e (ticks w2) + 72000)]>
              (session_state w2)))
  /\
  (forall e w tok w',
     run (get_access_token true) e w = (Ok tok, w') -> sent w' <> sent w)
  /\
  (forall a e w tok w',
     run (get_streamer_token a true) e w = (Ok tok, w') -> sent w' <> sent w).
Proof.
  split; [reflexivity |]. split; [| split; [reflexivity |]].
  2: split; [| split;
    [exact refresh_access_token_ok_sent
    | intros a e w tok w'; exact (refresh_streamer_token_ok_sent a e w tok w')]].
  - intros e w c Hc. split.
    + destruct (get_access_token_exchange true e w w c
                  (cached_access_forced e w) Hc) as [-> _].
      destruct (access_exchange e w c) as [r w'] eqn:Hx.
      exists r, w'. split; [reflexivity |].
      apply access_exchange_effect in Hx as [Hx _]. exact Hx.
    + intros r d tok ttl Hr Hs Hj Ht Hn.
      destruct (get_access_token_exchange true e w w c
                  (cached_access_forced e w) Hc) as [-> _].
      assert (Hgo : float_of_int_overflows ttl = false ->
        exists w', access_exchange e w c = (Ok tok, w') /\
          session_state w' =
            <["access_token_data" :=
                access_entry tok (float_sum (clock e (ticks w)) ttl)]>
              (session_state w)).
      { intros Ho.
        rewrite (access_exchange_success _ _ _ _ _ _ _ Hr Hs Hj Ht Hn Ho).
        eexists. split; reflexivity. }
      split; [exact Hgo |]. split.
      * intros Hb Hb'. rewrite <- (float_sum_exact _ _ Hb Hb').
        apply Hgo, float_of_int_small, Hb.
      * intros Ho.
        rewrite (access_exchange_overflow _ _ _ _ _ _ _ Hr Hs Hj Ht Hn Ho).
        eexists. split; reflexivity.
  - intros a e w a' w2 Ha. split.
    + destruct (get_streamer_token_exchange a true e w w a' w2
                  (cached_streamer_forced e w) Ha) as [-> _].
      destruct (quote_exchange e w2 a') as [r w'] eqn:Hx.
      exists r, w'. split; [reflexivity |].
      apply quote_exchange_effect in Hx as [Hx _]. exact Hx.
    + intros r d d' tok Hr Hs Hj Hd Ht.
      destruct (get_streamer_token_exchange a true e w w a' w2
                  (cached_streamer_forced e w) Ha) as [-> _].
      rewrite (quote_exchange_success _ _ _ _ _ _ _ Hr Hs Hj Hd Ht).
      eexists. split; reflexivity.
Qed.

(** C5 (expiry policy).  On a successful exchange [get_access_token]
    caches and returns the [access_token] of the answer, with
    [expires_at] the float sum of the clock reading taken after the answer
    and 900 when the answer has no [expires_in], and of the reading and
    [expires_in] when it has an integer one; for a reading and a lifetime
    below 2^53, as every real one is, that is exactly the reading plus 900,
    resp. plus [expires_in].  An integer too large for a float raises
    [OverflowError] with nothing stored.  [get_streamer_token] caches and
    returns [data.token] with [expires_at] the clock reading plus 72000,
    whatever else the answer contains. *)
Theorem expiry_policy :
  (forall force_refresh e w w1 c r d tok,
     run (cached_access_token force_refresh) e w = (Ok None, w1) ->
     run load_credentials e w = (Ok c, w) ->
     http e (sent w) (token_request c) = Responded r ->
     status_code r = 200 ->
     json r = Some (VDict d) ->
     assoc "access_token" d = Some tok ->
     let acquired := clock e (ticks w1) in
     let stores exp :=
       exists w', run (get_access_token force_refresh) e w = (Ok tok, w') /\
         ticks w' = S (ticks w1) /\
         session_state w' !! "access_token_data" =
           Some (access_entry tok exp) in
     (assoc "expires_in" d = None ->
      stores (float_sum acquired 900) /\
      (Z.abs (acquired + 900) < 2 ^ 53 -> stores (acquired + 900))) /\
     (forall n, assoc "expires_in" d = Some (VNum n) ->
      (float_of_int_overflows n = false -> stores (float_sum acquired n)) /\
      (Z.abs n < 2 ^ 53 -> Z.abs (acquired + n) < 2 ^ 53 ->
       stores (acquired + n)) /\
      (float_of_int_overflows n = true ->
       exists w',
         run (get_access_token force_refresh) e w = (Raise OverflowError, w')
         /\ session_state w' = session_state w)))
  /\
  (forall a force_refresh e w w1 a' w2 r d d' tok,
     run (cached_streamer_token force_refresh) e w = (Ok None, w1) ->
     run (resolve_access_token a) e w1 = (Ok a', w2) ->
     http e (sent w2) (quote_request a') = Responded r ->
     status_code r = 200 ->
     json r = Some (VDict d) ->
     assoc "data" d = Some (VDict d') ->
     assoc "token" d' = Some tok ->
     let acquired := clock e (ticks w2) in
     exists w', run (get_streamer_token a force_refresh) e w = (Ok tok, w') /\
       ticks w' = S (ticks w2) /\
       session_state w' !! "streamer_token_data" =
         Some (streamer_entry tok (acquired + 72000))).
Proof.
  split.
  - intros fr e w w1 c r d tok Hp Hc Hr Hs Hj Ht acquired stores.
    destruct (get_access_token_exchange _ _ _ _ _ Hp Hc) as [Hrun [Hss Hn]].
    rewrite <- Hn in Hr.
    assert (Hgo : forall ttl,
      as_number (default (VNum 900) (assoc "expires_in" d)) = Some ttl ->
      float_of_int_overflows ttl = false ->
      stores (float_sum acquired ttl)).
    { intros ttl Hn' Ho. unfold stores. rewrite Hrun.
      rewrite (access_exchange_success _ _ _ _ _ _ _ Hr Hs Hj Ht Hn' Ho).
      eexists. split; [reflexivity |]. split; [reflexivity |].
      cbn. apply lookup_insert_eq. }
    split.
    + intros He. split.
      * apply Hgo; [rewrite He |]; reflexivity.
      * intros Hb. rewrite <- (float_sum_exact acquired 900); [| reflexivity | exact Hb].
        apply Hgo; [rewrite He |]; reflexivity.
    + intros n He. split; [| split].
      * apply Hgo. rewrite He. reflexivity.
      * intros Hb Hb'. rewrite <- (float_sum_exact _ _ Hb Hb').
        apply Hgo; [rewrite He; reflexivity | apply float_of_int_small, Hb].
      * intros Ho. rewrite Hrun.
        rewrite (access_exchange_overflow _ _ _ _ d tok n Hr Hs Hj Ht);
          [| rewrite He; reflexivity | exact Ho].
        eexists. split; [reflexivity | exact Hss].
  - intros a fr e w w1 a' w2 r d d' tok Hp Ha Hr Hs Hj Hd Ht acquired.
    destruct (get_streamer_token_exchange _ _ _ _ _ _ _ Hp Ha) as [-> _].
    rewrite (quote_exchange_success _ _ _ _ _ _ _ Hr Hs Hj Hd Ht).
    eexists. split; [reflexivity |]. split; [reflexivity |].
    cbn. apply lookup_insert_eq.
Qed.

(** C10 (malformed success answer).  A 200 answer whose JSON object has
    no ["access_token"] makes [get_access_token] raise [KeyError] and
    leaves the session state as it was; a 200 answer whose JSON object has
    no ["data"], or whose ["data"] object has no ["token"], makes
    [get_streamer_token] raise [KeyError] and leaves the streamer slot as
    it was: the slot is written only after the field has been read. *)
Theorem malformed_success_preserves_cache :
  (forall force_refresh e w w1 c r d,
     run (cached_access_token force_refresh) e w = (Ok None, w1) ->
     run load_credentials e w = (Ok c, w) ->
     http e (sent w) (token_request c) = Responded r ->
     status_code r = 200 ->
     json r = Some (VDict d) ->
     assoc "access_token" d = None ->
     exists w',
       run (get_access_token force_refresh) e w =
         (Raise (KeyError "access_token"), w') /\
       session_state w' = session_state w)
  /\
  (forall a force_refresh e w w1 a' w2 r d,
     run (cached_streamer_token force_refresh) e w = (Ok None, w1) ->
     run (resolve_access_token a) e w1 = (Ok a', w2) ->
     http e (sent w2) (quote_request a') = Responded r ->
     status_code r = 200 ->
     json r = Some (VDict d) ->
     (assoc "data" d = None ->
      exists w',
        run (get_streamer_token a force_refresh) e w =
          (Raise (KeyError "data"), w') /\
        session_state w' !! "streamer_token_data" =
          session_state w !! "streamer_token_data") /\
     (forall d', assoc "data" d = Some (VDict d') ->
      assoc "token" d' = None ->
      exists w',
        run (get_streamer_token a force_refresh) e w =
          (Raise (KeyError "token"), w') /\
        session_state w' !! "streamer_token_data" =
          session_state w !! "streamer_token_data")).
Proof.
  split.
  - intros fr e w w1 c r d Hp Hc Hr Hs Hj Ht.
    destruct (get_access_token_exchange _ _ _ _ _ Hp Hc) as [-> [Hss Hn]].
    rewrite <- Hn in Hr. unfold access_exchange. rewrite Hr, Hs, Hj, Ht. cbn.
    eexists. split; [reflexivity | exact Hss].
  - intros a fr e w w1 a' w2 r d Hp Ha Hr Hs Hj.
    destruct (get_streamer_token_exchange _ _ _ _ _ _ _ Hp Ha) as [-> [Hss _]].
    unfold quote_exchange. rewrite Hr, Hs, Hj. cbn. split.
    + intros Hd. rewrite Hd. eexists. split; [reflexivity | exact Hss].
    + intros d' Hd Ht. rewrite Hd, Ht.
      eexists. split; [reflexivity | exact Hss].
Qed.

(** C7 (missing credentials).  What [load_credentials] does with the
    secret store.  With no secrets file at all, [st.secrets[...]] raises
    [StreamlitSecretNotFoundError], which the handler for [KeyError] does
    not catch: the call does not raise the module's [ValueError], and an
    acquisition that reaches it lets the same error through before
    anything is sent.  With a secrets file lacking one of [CLIENT_ID],
    [CLIENT_SECRET], [REFRESH_TOKEN] it raises [ValueError] with the
    module's message, and so does every acquisition whose refresh loads
    the credentials, before anything is sent.  With the three keys there,
    the bundle holds exactly the three values. *)
Theorem missing_credentials_raise :
  (forall e w,
     secrets e = NoSecretsFile ->
     run load_credentials e w = (Raise StreamlitSecretNotFoundError, w) /\
     (forall msg, run load_credentials e w <> (Raise (ValueError msg), w)) /\
     (forall force_refresh w1,
        run (cached_access_token force_refresh) e w = (Ok None, w1) ->
        run (get_access_token force_refresh) e w =
          (Raise StreamlitSecretNotFoundError, w1) /\
        sent w1 = sent w))
  /\
  (forall e w s,
     secrets e = SecretsFile s ->
     s !! "CLIENT_ID" = None \/
     s !! "CLIENT_SECRET" = None \/
     s !! "REFRESH_TOKEN" = None ->
     run load_credentials e w = (Raise (ValueError missing_secrets), w) /\
     (forall force_refresh w1,
        run (cached_access_token force_refresh) e w = (Ok None, w1) ->
        run (get_access_token force_refresh) e w =
          (Raise (ValueError missing_secrets), w1) /\
        sent w1 = sent w) /\
     (forall force_refresh w1 w2,
        run (cached_streamer_token force_refresh) e w = (Ok None, w1) ->
        run (cached_access_token false) e w1 = (Ok None, w2) ->
        run (get_streamer_token VNone force_refresh) e w =
          (Raise (ValueError missing_secrets), w2) /\
        sent w2 = sent w))
  /\
  (forall e w a b c,
     secrets e !! "CLIENT_ID" = Some a ->
     secrets e !! "CLIENT_SECRET" = Some b ->
     secrets e !! "REFRESH_TOKEN" = Some c ->
     run load_credentials e w =
       (Ok {| client_id := a; client_secret := b; refresh_token := c |}, w)).
Proof.
  assert (Hacc : forall e x, (forall u, run load_credentials e u = (Raise x, u)) ->
    forall fr u u1,
    run (cached_access_token fr) e u = (Ok None, u1) ->
    run (get_access_token fr) e u = (Raise x, u1) /\ sent u1 = sent u).
  { intros e x Hl fr u u1 Hp. rewrite get_access_token_run, Hp.
    rewrite refresh_access_token_run, (Hl u1).
    split; [reflexivity |].
    apply cached_access_token_world in Hp as [-> | ->]; reflexivity. }
  split; [| split; [| apply load_credentials_present]].
  - intros e w Hf.
    pose proof (fun u => load_credentials_no_file e u Hf) as Hl.
    split; [apply Hl |]. split.
    + intros msg. rewrite (Hl w). discriminate.
    + intros fr w1. apply (Hacc e _ Hl).
  - intros e w s Hf Hm.
    pose proof (fun u => load_credentials_absent e u s Hf Hm) as Hl.
    split; [apply Hl |].
    split; [intros fr w1; apply (Hacc e _ Hl) |].
    intros fr w1 w2 Hp Hq.
    rewrite get_streamer_token_run, Hp, refresh_streamer_token_run.
    change (run (resolve_access_token VNone) e w1)
      with (run (get_access_token false) e w1).
    destruct (Hacc e _ Hl _ _ _ Hq) as [Hr Hs]. rewrite Hr.
    split; [reflexivity |]. rewrite Hs.
    apply cached_streamer_token_world in Hp as [-> | ->]; reflexivity.
Qed.

(** C4 (end to end).  With the credentials c1/s1/r1 in the secret store, a
    token endpoint answering 200 with [{"access_token":"AT1",
    "expires_in":900}], a quote-token endpoint answering 200 with
    [{"data":{"token":"ST1"}}] and neither slot in the session state,
    [ensure_streamer_token()], which is [get_streamer_token()] with its
    defaults, returns "ST1" after the token request and the quote-token
    request, and a second call made less than 71700 seconds later returns
    "ST1" again and sends nothing. *)
Theorem end_to_end_scenario :
  forall e w token_text quote_text,
    session_state w !! "access_token_data" = None ->
    session_state w !! "streamer_token_data" = None ->
    secrets e !! "CLIENT_ID" = Some "c1" ->
    secrets e !! "CLIENT_SECRET" = Some "s1" ->
    secrets e !! "REFRESH_TOKEN" = Some "r1" ->
    (forall h, http e h (token_request scenario_credentials) =
       Responded {| status_code := 200; text := token_text;
                    json := Some scenario_token_body |}) ->
    (forall h a, http e h (quote_request a) =
       Responded {| status_code := 200; text := quote_text;
                    json := Some scenario_quote_body |}) ->
    clock e (S (S (ticks w))) < clock e (S (ticks w)) + 71700 ->
    ensure_streamer_token = get_streamer_token VNone false /\
    exists w1,
      run ensure_streamer_token e w = (Ok (VStr "ST1"), w1) /\
      sent w1 = sent w ++ [token_request scenario_credentials;
                           quote_request (VStr "AT1")] /\
      exists w2,
        run ensure_streamer_token e w1 = (Ok (VStr "ST1"), w2) /\
        sent w2 = sent w1.
Proof.
  intros e w tt qt Ha Hs Hid Hsec Href Htok Hquo Hclk.
  split; [reflexivity |].
  unfold ensure_streamer_token.
  pose proof (load_credentials_present e w _ _ _ Hid Hsec Href) as Hc.
  fold scenario_credentials in Hc.
  destruct (get_access_token_exchange false e w w scenario_credentials
              (cached_access_absent e w Ha) Hc) as [Hacc _].
  rewrite (access_exchange_success e w scenario_credentials _ _ (VStr "AT1") 900
             (Htok _) eq_refl eq_refl eq_refl eq_refl eq_refl) in Hacc.
  destruct (get_streamer_token_exchange VNone false e w w _ _
              (cached_streamer_absent e w Hs) Hacc) as [Hstr _].
  rewrite (quote_exchange_success e _ (VStr "AT1") _ _ _ (VStr "ST1")
             (Hquo _ _) eq_refl eq_refl eq_refl eq_refl) in Hstr.
  eexists. split; [exact Hstr |]. split.
  { cbn. rewrite <- app_assoc. reflexivity. }
  eexists. split.
  - eapply get_streamer_token_hit; [cbn; apply lookup_insert_eq |].
    cbn. lia.
  - reflexivity.
Qed.

(** C8 (a cache hit ignores the access token).  With
    [force_refresh = False] and a streamer entry fresh under the 300
    seconds, [get_streamer_token] returns the cached token for any two
    values of [access_token], [None] included, sends nothing and leaves
    the session state alone.  On the refresh a supplied access token goes
    into the request as it is: the one request sent is the quote-token
    request bearing it, the access slot is not written, and the access
    slot is not looked at either, for two worlds that differ in the
    access slot only give the same result. *)
Theorem streamer_hit_ignores_access_token :
  (forall e w tok exp a1 a2,
     session_state w !! "streamer_token_data" = Some (streamer_entry tok exp) ->
     clock e (ticks w) + 300 < exp ->
     run (get_streamer_token a1 false) e w = (Ok tok, tick w) /\
     run (get_streamer_token a2 false) e w = (Ok tok, tick w) /\
     sent (tick w) = sent w /\
     session_state (tick w) = session_state w)
  /\
  (forall a force_refresh e w w1,
     a <> VNone ->
     run (cached_streamer_token force_refresh) e w = (Ok None, w1) ->
     exists r w',
       run (get_streamer_token a force_refresh) e w = (r, w') /\
       sent w' = sent w ++ [quote_request a] /\
       session_state w' !! "access_token_data" =
         session_state w !! "access_token_data")
  /\
  (forall a force_refresh e w1 w2,
     a <> VNone ->
     same_view (fun k => k <> "access_token_data") w1 w2 ->
     fst (run (get_streamer_token a force_refresh) e w1) =
       fst (run (get_streamer_token a force_refresh) e w2) /\
     same_view (fun k => k <> "access_token_data")
       (snd (run (get_streamer_token a force_refresh) e w1))
       (snd (run (get_streamer_token a force_refresh) e w2))).
Proof.
  split; [| split].
  - intros e w tok exp a1 a2 H Hlt.
    rewrite !(get_streamer_token_hit _ e w tok exp H Hlt). auto.
  - intros a fr e w w1 Ha Hp.
    destruct (run (get_streamer_token a fr) e w) as [r w'] eqn:Hrun.
    exists r, w'. split; [reflexivity |]. split.
    + pose proof Hrun as Hx.
      rewrite get_streamer_token_run, Hp, refresh_streamer_token_run in Hx.
      rewrite (resolve_access_token_supplied _ _ _ Ha) in Hx.
      apply quote_exchange_effect in Hx as [-> _].
      apply cached_streamer_token_world in Hp as [-> | ->]; reflexivity.
    + eapply get_streamer_token_frame; [exact Ha | exact Hrun | discriminate].
  - intros a fr e w1 w2 Ha Hv.
    apply get_streamer_token_view; [exact Ha | discriminate | exact Hv].
Qed.

(** C9 (frame).  [get_access_token] changes no slot of the session state
    other than the access slot, whatever its outcome, and does not look at
    the streamer slot: two worlds that differ in the streamer slot only
    give the same result, the same requests and the same final content of
    every other slot.  [get_streamer_token], handed an access token,
    changes no slot other than the streamer slot, so not the access
    slot; without one it can write the access slot through the nested
    [get_access_token()], as it does on the cold cache of the end-to-end
    scenario. *)
Theorem acquisitions_keep_to_their_slot :
  (forall force_refresh e w r w' k,
     run (get_access_token force_refresh) e w = (r, w') ->
     k <> "access_token_data" ->
     session_state w' !! k = session_state w !! k)
  /\
  (forall force_refresh e w1 w2,
     same_view (fun k => k <> "streamer_token_data") w1 w2 ->
     fst (run (get_access_token force_refresh) e w1) =
       fst (run (get_access_token force_refresh) e w2) /\
     same_view (fun k => k <> "streamer_token_data")
       (snd (run (get_access_token force_refresh) e w1))
       (snd (run (get_access_token force_refresh) e w2)))
  /\
  (forall a force_refresh e w r w' k,
     a <> VNone ->
     run (get_streamer_token a force_refresh) e w = (r, w') ->
     k <> "streamer_token_data" ->
     session_state w' !! k = session_state w !! k)
  /\
  session_state (snd (run (get_streamer_token VNone false) scenario_env cold))
    !! "access_token_data" = Some (access_entry (VStr "AT1") 1900).
Proof.
  split; [| split; [| split]].
  - intros fr e w r w' k. apply get_access_token_frame.
  - intros fr e w1 w2 Hv.
    apply get_access_token_view; [discriminate | exact Hv].
  - intros a fr e w r w' k. apply get_streamer_token_frame.
  - reflexivity.
Qed.

(** * Concrete runs *)

(** Entries expiring 61 s (access) and 301 s (streamer) after the clock
    reading are served from the cache; entries expiring 59 s and 299 s
    after it send the token request and the quote-token request. *)
Lemma freshness_boundary_witness :
  run (get_access_token false) scenario_env (warm 1061 0) =
    (Ok old_access, tick (warm 1061 0)) /\
  run (get_streamer_token VNone false) scenario_env (warm 0 1301) =
    (Ok old_streamer, tick (warm 0 1301)) /\
  (exists r w',
     run (get_access_token false) scenario_env (warm 1059 0) = (r, w') /\
     sent w' = sent (warm 1059 0) ++ [token_request scenario_credentials]) /\
  (exists r w',
     run (get_streamer_token supplied false) scenario_env (warm 0 1299) =
       (r, w') /\
     sent w' = sent (warm 0 1299) ++ [quote_request supplied]).
Proof.
  split; [| split; [| split]].
  - destruct (proj1 freshness_boundary scenario_env (warm 1061 0)
                old_access 1061 eq_refl) as (_ & _ & _ & H & _).
    apply H. reflexivity.
  - destruct (proj2 freshness_boundary scenario_env (warm 0 1301) VNone
                old_streamer 1301 eq_refl) as (_ & _ & _ & H & _).
    apply H. reflexivity.
  - destruct (proj1 freshness_boundary scenario_env (warm 1059 0)
                old_access 1059 eq_refl) as (_ & _ & _ & _ & _ & H).
    apply (proj2 (H scenario_credentials eq_refl)). reflexivity.
  - destruct (proj2 freshness_boundary scenario_env (warm 0 1299) supplied
                old_streamer 1299 eq_refl) as (_ & _ & _ & _ & _ & _ & H).
    apply H; [discriminate | cbn; lia].
Defined.

(** Both endpoints answer 401 on stale slots. *)
Lemma refresh_failure_preserves_cache_witness :
  (exists x w',
     run (get_access_token false) denying_env (warm 0 0) = (Raise x, w') /\
     session_state w' = session_state (warm 0 0)) /\
  (exists x w',
     run (get_streamer_token supplied false) denying_env (warm 0 0) =
       (Raise x, w') /\
     session_state w' !! "streamer_token_data" =
       session_state (warm 0 0) !! "streamer_token_data").
Proof.
  split.
  - apply (proj1 refresh_failure_preserves_cache false denying_env (warm 0 0)
             (tick (warm 0 0)) scenario_credentials unauthorized);
      [reflexivity | reflexivity | reflexivity | discriminate].
  - apply (proj1 (proj2 refresh_failure_preserves_cache) supplied false
             denying_env (warm 0 0) (tick (warm 0 0)) supplied
             (tick (warm 0 0)) unauthorized);
      [reflexivity | reflexivity | reflexivity | discriminate].
Defined.

(** Forced calls on fresh slots. *)
Lemma forced_refresh_bypasses_cache_witness :
  (exists r w',
     run (get_access_token true) scenario_env (warm 5000 90000) = (r, w') /\
     sent w' = sent (warm 5000 90000) ++ [token_request scenario_credentials])
  /\
  (exists w',
     run (get_access_token true) scenario_env (warm 5000 90000) =
       (Ok (VStr "AT1"), w') /\
     session_state w' =
       <["access_token_data" := access_entry (VStr "AT1") (1000 + 900)]>
         (session_state (warm 5000 90000)))
  /\
  (exists w',
     run (get_streamer_token supplied true) scenario_env (warm 5000 90000) =
       (Ok (VStr "ST1"), w') /\
     session_state w' =
       <["streamer_token_data" := streamer_entry (VStr "ST1") 73000]>
         (session_state (warm 5000 90000))).
Proof.
  split; [| split].
  - apply (proj1 (proj2 forced_refresh_bypasses_cache) scenario_env
             (warm 5000 90000) scenario_credentials eq_refl).
  - apply (proj1 (proj2 (proj2 (proj1 (proj2 forced_refresh_bypasses_cache)
             scenario_env (warm 5000 90000) scenario_credentials eq_refl)
             {| status_code := 200; text := "(body)";
                json := Some scenario_token_body |}
             [("access_token", VStr "AT1"); ("expires_in", VNum 900)]
             (VStr "AT1") 900 eq_refl eq_refl eq_refl eq_refl eq_refl)));
      reflexivity.
  - apply (proj2 (proj1 (proj2 (proj2 (proj2 forced_refresh_bypasses_cache)))
             supplied scenario_env (warm 5000 90000) supplied
             (warm 5000 90000) eq_refl)
             {| status_code := 200; text := "(body)";
                json := Some scenario_quote_body |}
             [("data", VDict [("token", VStr "ST1")])]
             [("token", VStr "ST1")] (VStr "ST1"));
      reflexivity.
Defined.

(** The scenario itself, on the empty session state. *)
Lemma end_to_end_scenario_witness :
  exists w1,
    run ensure_streamer_token scenario_env cold = (Ok (VStr "ST1"), w1) /\
    sent w1 = [token_request scenario_credentials;
               quote_request (VStr "AT1")] /\
    exists w2,
      run ensure_streamer_token scenario_env w1 = (Ok (VStr "ST1"), w2) /\
      sent w2 = sent w1.
Proof.
  apply (end_to_end_scenario scenario_env cold "(body)" "(body)");
    try reflexivity; intros; reflexivity.
Defined.

(** A token answer without [expires_in], one whose [expires_in] is 2^1024,
    and a quote-token answer. *)
Lemma expiry_policy_witness :
  (exists w',
     run (get_access_token false) bare_env cold = (Ok (VStr "AT1"), w') /\
     ticks w' = 1%nat /\
     session_state w' !! "access_token_data" =
       Some (access_entry (VStr "AT1") (1000 + 900))) /\
  (exists w',
     run (get_access_token false) huge_ttl_env cold =
       (Raise OverflowError, w') /\
     session_state w' = session_state cold) /\
  (exists w',
     run (get_streamer_token supplied false) scenario_env cold =
       (Ok (VStr "ST1"), w') /\
     ticks w' = 1%nat /\
     session_state w' !! "streamer_token_data" =
       Some (streamer_entry (VStr "ST1") (1000 + 72000))).
Proof.
  split; [| split].
  - apply (proj1 (proj1 expiry_policy false bare_env cold cold
             scenario_credentials
             {| status_code := 200; text := "(body)";
                json := Some bare_token_body |}
             [("access_token", VStr "AT1")] (VStr "AT1")
             eq_refl eq_refl eq_refl eq_refl eq_refl eq_refl)).
    + reflexivity.
    + reflexivity.
  - apply (proj2 (proj1 expiry_policy false huge_ttl_env cold cold
             scenario_credentials
             {| status_code := 200; text := "(body)";
                json := Some huge_ttl_body |}
             [("access_token", VStr "AT1"); ("expires_in", VNum (2 ^ 1024))]
             (VStr "AT1")
             eq_refl eq_refl eq_refl eq_refl eq_refl eq_refl) (2 ^ 1024)
             eq_refl).
    vm_compute. reflexivity.
  - apply (proj2 expiry_policy supplied false scenario_env cold cold supplied
             cold
             {| status_code := 200; text := "(body)";
                json := Some scenario_quote_body |}
             [("data", VDict [("token", VStr "ST1")])]
             [("token", VStr "ST1")] (VStr "ST1"));
      reflexivity.
Defined.

(** Both endpoints answer 401 with the body [unauthorized]. *)
Lemma non_success_raises_with_body_witness :
  (exists w',
     run (get_access_token false) denying_env cold =
       (Raise (Exception "Token error: unauthorized"), w') /\
     sent w' = [token_request scenario_credentials]) /\
  (exists w',
     run (get_streamer_token supplied false) denying_env cold =
       (Raise (Exception "Streamer token error: unauthorized"), w') /\
     sent w' = [quote_request supplied]).
Proof.
  split.
  - apply (proj1 non_success_raises_with_body false denying_env cold cold
             scenario_credentials unauthorized);
      [reflexivity | reflexivity | reflexivity | discriminate].
  - destruct (proj2 non_success_raises_with_body supplied false denying_env
                cold cold supplied cold unauthorized)
      as (w' & Hrun & _ & Hsent);
      [reflexivity | reflexivity | reflexivity | discriminate |].
    exists w'. split; [exact Hrun |]. apply Hsent. discriminate.
Defined.

(** No secrets file, a secrets file without [CLIENT_SECRET], and the
    full one. *)
Lemma missing_credentials_raise_witness :
  run load_credentials no_file_env cold =
    (Raise StreamlitSecretNotFoundError, cold) /\
  run (get_access_token false) no_file_env cold =
    (Raise StreamlitSecretNotFoundError, cold) /\
  run load_credentials unconfigured_env cold =
    (Raise (ValueError missing_secrets), cold) /\
  run (get_access_token false) unconfigured_env cold =
    (Raise (ValueError missing_secrets), cold) /\
  run load_credentials scenario_env cold = (Ok scenario_credentials, cold).
Proof.
  destruct (proj1 missing_credentials_raise no_file_env cold eq_refl)
    as (Hno & _ & Hnoacc).
  destruct (proj1 (proj2 missing_credentials_raise) unconfigured_env cold
              {[ "CLIENT_ID" := "c1"; "REFRESH_TOKEN" := "r1" ]} eq_refl)
    as (Hload & Hacc & _).
  { right. left. reflexivity. }
  split; [exact Hno |].
  split; [apply (Hnoacc false cold); reflexivity |].
  split; [exact Hload |]. split.
  - apply (Hacc false cold). reflexivity.
  - apply (proj2 (proj2 missing_credentials_raise) scenario_env cold
             "c1" "s1" "r1");
      reflexivity.
Defined.

(** A fresh streamer slot asked with and without an access token, and a
    stale one refreshed with a supplied token. *)
Lemma streamer_hit_ignores_access_token_witness :
  run (get_streamer_token VNone false) scenario_env (warm 0 90000) =
    (Ok old_streamer, tick (warm 0 90000)) /\
  run (get_streamer_token supplied false) scenario_env (warm 0 90000) =
    (Ok old_streamer, tick (warm 0 90000)) /\
  (exists r w',
     run (get_streamer_token supplied false) scenario_env (warm 0 0) = (r, w')
     /\ sent w' = [quote_request supplied]
     /\ session_state w' !! "access_token_data" =
          Some (access_entry old_access 0)).
Proof.
  destruct (proj1 streamer_hit_ignores_access_token scenario_env
              (warm 0 90000) old_streamer 90000 VNone supplied)
    as (H1 & H2 & _); [reflexivity | reflexivity |].
  split; [exact H1 |]. split; [exact H2 |].
  apply (proj1 (proj2 streamer_hit_ignores_access_token) supplied false
           scenario_env (warm 0 0) (tick (warm 0 0)));
    [discriminate | reflexivity].
Defined.

(** Each acquisition refreshes its own stale slot and leaves the other. *)
Lemma acquisitions_keep_to_their_slot_witness :
  session_state (snd (run (get_access_token false) scenario_env (warm 0 0)))
    !! "streamer_token_data" = Some (streamer_entry old_streamer 0) /\
  session_state
    (snd (run (get_streamer_token supplied false) scenario_env (warm 0 0)))
    !! "access_token_data" = Some (access_entry old_access 0).
Proof.
  split.
  - apply (proj1 acquisitions_keep_to_their_slot false scenario_env (warm 0 0)
             (fst (run (get_access_token false) scenario_env (warm 0 0)))
             (snd (run (get_access_token false) scenario_env (warm 0 0)))
             "streamer_token_data");
      [reflexivity | discriminate].
  - apply (proj1 (proj2 (proj2 acquisitions_keep_to_their_slot)) supplied false
             scenario_env (warm 0 0)
             (fst (run (get_streamer_token supplied false) scenario_env
                     (warm 0 0)))
             (snd (run (get_streamer_token supplied false) scenario_env
                     (warm 0 0)))
             "access_token_data");
      [discriminate | reflexivity | discriminate].
Defined.

(** Both endpoints answer 200 with the empty JSON object. *)
Lemma malformed_success_preserves_cache_witness :
  (exists w',
     run (get_access_token false) empty_env (warm 0 0) =
       (Raise (KeyError "access_token"), w') /\
     session_state w' = session_state (warm 0 0)) /\
  (exists w',
     run (get_streamer_token supplied false) empty_env (warm 0 0) =
       (Raise (KeyError "data"), w') /\
     session_state w' !! "streamer_token_data" =
       session_state (warm 0 0) !! "streamer_token_data").
Proof.
  split.
  - apply (proj1 malformed_success_preserves_cache false empty_env (warm 0 0)
             (tick (warm 0 0)) scenario_credentials
             {| status_code := 200; text := "(body)";
                json := Some (VDict []) |} []);
      reflexivity.
  - apply (proj1 (proj2 malformed_success_preserves_cache supplied false
             empty_env (warm 0 0) (tick (warm 0 0)) supplied (tick (warm 0 0))
             {| status_code := 200; text := "(body)";
                json := Some (VDict []) |} []
             eq_refl eq_refl eq_refl eq_refl eq_refl)).
    reflexivity.
Defined.

(** * Further properties *)

(** ** Cache probes on arbitrary slots *)

Lemma probe_hit key field margin e w tok w1 :
  probe key field margin e w = (Ok (Some tok), w1) ->
  w1 = tick w /\
  exists exp, holds field tok exp (session_state w !! key) /\
    clock e (ticks w) + margin < exp.
Proof.
  unfold probe, holds.
  destruct (session_state w !! key) as [[| b | n | s | l | d] |];
    try discriminate.
  destruct (assoc "expires_at" d) as [x |] eqn:Hx; [| discriminate].
  destruct (as_number x) as [n |] eqn:Hn; [| discriminate].
  destruct (clock e (ticks w) + margin <? n) eqn:Hlt; [| discriminate].
  destruct (assoc field d) as [t |] eqn:Ht; [| discriminate].
  intros [= <- <-]. split; [reflexivity |].
  exists n. split; [| apply Z.ltb_lt, Hlt]. eauto 10.
Qed.

Lemma probe_well_formed_access e w :
  well_formed (session_state w) ->
  exists o w1, probe "access_token_data" "access_token" 60 e w = (Ok o, w1).
Proof.
  intros [[H | (tok & exp & H)] _]; unfold probe; rewrite H; cbn; eauto.
  destruct (_ <? _); eauto.
Qed.

Lemma probe_well_formed_streamer e w :
  well_formed (session_state w) ->
  exists o w1, probe "streamer_token_data" "token" 300 e w = (Ok o, w1).
Proof.
  intros [_ [H | (tok & exp & H)]]; unfold probe; rewrite H; cbn; eauto.
  destruct (_ <? _); eauto.
Qed.

(** X1.  A slot that is present but was not written by the module blocks
    every unforced call: a slot that is not a dict raises [TypeError], a
    dict without ["expires_at"] raises [KeyError], both before the clock is
    read and with the world untouched, so the next unforced call fails the
    same way; a non-numeric ["expires_at"] raises [TypeError] and a fresh
    entry without its token field raises [KeyError] once the clock has
    been read.  Nothing is sent and no refresh is attempted.  The same
    holds for [get_streamer_token] and its slot, whatever access token it
    is given. *)
Theorem malformed_slot_blocks_unforced_calls :
  (forall e w v,
     session_state w !! "access_token_data" = Some v ->
     ((forall d, v <> VDict d) ->
      run (get_access_token false) e w = (Raise TypeError, w)) /\
     (forall d, v = VDict d ->
      (assoc "expires_at" d = None ->
       run (get_access_token false) e w = (Raise (KeyError "expires_at"), w)) /\
      (forall x, assoc "expires_at" d = Some x -> as_number x = None ->
       run (get_access_token false) e w = (Raise TypeError, tick w)) /\
      (forall x n, assoc "expires_at" d = Some x -> as_number x = Some n ->
       clock e (ticks w) + 60 < n -> assoc "access_token" d = None ->
       run (get_access_token false) e w =
         (Raise (KeyError "access_token"), tick w))))
  /\
  (forall a e w v,
     session_state w !! "streamer_token_data" = Some v ->
     ((forall d, v <> VDict d) ->
      run (get_streamer_token a false) e w = (Raise TypeError, w)) /\
     (forall d, v = VDict d ->
      (assoc "expires_at" d = None ->
       run (get_streamer_token a false) e w =
         (Raise (KeyError "expires_at"), w)) /\
      (forall x, assoc "expires_at" d = Some x -> as_number x = None ->
       run (get_streamer_token a false) e w = (Raise TypeError, tick w)) /\
      (forall x n, assoc "expires_at" d = Some x -> as_number x = Some n ->
       clock e (ticks w) + 300 < n -> assoc "token" d = None ->
       run (get_streamer_token a false) e w =
         (Raise (KeyError "token"), tick w)))).
Proof.
  split.
  - intros e w v H. split; [| intros d ->; split; [| split]].
    + intros Hv. rewrite get_access_token_run, cached_access_token_run.
      unfold probe. rewrite H. destruct v; try reflexivity.
      exfalso. eapply Hv. reflexivity.
    + intros Hx. rewrite get_access_token_run, cached_access_token_run.
      unfold probe. rewrite H, Hx. reflexivity.
    + intros x Hx Hn. rewrite get_access_token_run, cached_access_token_run.
      unfold probe. rewrite H, Hx, Hn. reflexivity.
    + intros x n Hx Hn Hlt Ht.
      rewrite get_access_token_run, cached_access_token_run.
      unfold probe. rewrite H, Hx, Hn, Ht.
      apply Z.ltb_lt in Hlt. rewrite Hlt. reflexivity.
  - intros a e w v H. split; [| intros d ->; split; [| split]].
    + intros Hv. rewrite get_streamer_token_run, cached_streamer_token_run.
      unfold probe. rewrite H. destruct v; try reflexivity.
      exfalso. eapply Hv. reflexivity.
    + intros Hx. rewrite get_streamer_token_run, cached_streamer_token_run.
      unfold probe. rewrite H, Hx. reflexivity.
    + intros x Hx Hn. rewrite get_streamer_token_run, cached_streamer_token_run.
      unfold probe. rewrite H, Hx, Hn. reflexivity.
    + intros x n Hx Hn Hlt Ht.
      rewrite get_streamer_token_run, cached_streamer_token_run.
      unfold probe. rewrite H, Hx, Hn, Ht.
      apply Z.ltb_lt in Hlt. rewrite Hlt. reflexivity.
Qed.

(** ** The shape of the slots is an invariant *)

Lemma load_credentials_unchanged e w r w1 :
  run load_credentials e w = (r, w1) -> w1 = w.
Proof. rewrite (load_credentials_world e w). intros [= _ <-]. reflexivity. Qed.

Lemma well_formed_insert_access s tok exp :
  well_formed s ->
  well_formed (<["access_token_data" := access_entry tok exp]> s).
Proof.
  intros [_ Hs]. split.
  - right. exists tok, exp. apply lookup_insert_eq.
  - rewrite lookup_insert_ne by discriminate. exact Hs.
Qed.

Lemma well_formed_insert_streamer s tok exp :
  well_formed s ->
  well_formed (<["streamer_token_data" := streamer_entry tok exp]> s).
Proof.
  intros [Ha _]. split.
  - rewrite lookup_insert_ne by discriminate. exact Ha.
  - right. exists tok, exp. apply lookup_insert_eq.
Qed.

Lemma get_access_token_well_formed force_refresh e w r w' :
  well_formed (session_state w) ->
  run (get_access_token force_refresh) e w = (r, w') ->
  well_formed (session_state w').
Proof.
  intros Hwf H.
  apply get_access_token_session in H as [-> | (tok & exp & _ & ->)];
    [exact Hwf | apply well_formed_insert_access, Hwf].
Qed.

Lemma resolve_access_token_well_formed a e w r w' :
  well_formed (session_state w) ->
  run (resolve_access_token a) e w = (r, w') ->
  well_formed (session_state w').
Proof.
  intros Hwf. destruct a; try (intros [= _ <-]; exact Hwf).
  apply get_access_token_well_formed, Hwf.
Qed.

Lemma quote_exchange_well_formed e w a r w' :
  well_formed (session_state w) ->
  quote_exchange e w a = (r, w') ->
  well_formed (session_state w').
Proof.
  intros Hwf H.
  apply quote_exchange_effect in H as [_ [(x & _ & ->) | (tok & _ & ->)]];
    [exact Hwf | apply well_formed_insert_streamer, Hwf].
Qed.

Lemma get_streamer_token_well_formed a force_refresh e w r w' :
  well_formed (session_state w) ->
  run (get_streamer_token a force_refresh) e w = (r, w') ->
  well_formed (session_state w').
Proof.
  intros Hwf. rewrite get_streamer_token_run.
  destruct (run (cached_streamer_token force_refresh) e w)
    as [[[tok |] | x] w1] eqn:Hp;
    pose proof (cached_streamer_token_world _ _ _ _ _ Hp) as Hw;
    assert (Hwf1 : well_formed (session_state w1))
      by (destruct Hw as [-> | ->]; exact Hwf).
  - intros [= _ <-]. exact Hwf1.
  - rewrite refresh_streamer_token_run.
    destruct (run (resolve_access_token a) e w1) as [[a' | x] w2] eqn:Ha;
      pose proof (resolve_access_token_well_formed _ _ _ _ _ Hwf1 Ha) as Hwf2.
    + apply quote_exchange_well_formed, Hwf2.
    + intros [= _ <-]. exact Hwf2.
  - intros [= _ <-]. exact Hwf1.
Qed.

Lemma cached_access_token_well_formed force_refresh e w :
  well_formed (session_state w) ->
  exists o w1, run (cached_access_token force_refresh) e w = (Ok o, w1).
Proof.
  intros Hwf. destruct force_refresh.
  - rewrite cached_access_forced. eauto.
  - rewrite cached_access_token_run. apply probe_well_formed_access, Hwf.
Qed.

Lemma cached_streamer_token_well_formed force_refresh e w :
  well_formed (session_state w) ->
  exists o w1, run (cached_streamer_token force_refresh) e w = (Ok o, w1).
Proof.
  intros Hwf. destruct force_refresh.
  - rewrite cached_streamer_forced. eauto.
  - rewrite cached_streamer_token_run. apply probe_well_formed_streamer, Hwf.
Qed.

(** X2.  The module writes only entries of its own shape
    ([{"access_token", "expires_at"}] and [{"token", "expires_at"}] with a
    numeric expiry): a session state whose two slots are absent or of that
    shape stays so under [get_access_token], [get_streamer_token] and the
    self-test, whatever their outcome, and on such a state the cache
    probes never raise, so an unforced call can fail in its refresh
    only. *)
Theorem well_formed_is_invariant :
  forall e w,
    well_formed (session_state w) ->
    (forall force_refresh,
       well_formed
         (session_state (snd (run (get_access_token force_refresh) e w)))) /\
    (forall a force_refresh,
       well_formed
         (session_state
            (snd (run (get_streamer_token a force_refresh) e w)))) /\
    well_formed (session_state (snd (main e w))) /\
    (forall force_refresh,
       exists o w1,
         run (cached_access_token force_refresh) e w = (Ok o, w1)) /\
    (forall force_refresh,
       exists o w1,
         run (cached_streamer_token force_refresh) e w = (Ok o, w1)).
Proof.
  intros e w Hwf.
  split; [| split; [| split; [| split]]].
  - intros fr.
    destruct (run (get_access_token fr) e w) as [r w'] eqn:H.
    eapply get_access_token_well_formed; eassumption.
  - intros a fr.
    destruct (run (get_streamer_token a fr) e w) as [r w'] eqn:H.
    eapply get_streamer_token_well_formed; eassumption.
  - unfold main.
    destruct (run load_credentials e w) as [[c | x] w1] eqn:Hc;
      apply load_credentials_unchanged in Hc as ->; [| exact Hwf].
    destruct (run (get_access_token false) e w) as [[a | x] w2] eqn:Ha;
      pose proof (get_access_token_well_formed _ _ _ _ _ Hwf Ha) as Hwf2;
      [| exact Hwf2].
    destruct (run (get_streamer_token a false) e w2) as [[s | x] w3] eqn:Hs;
      exact (get_streamer_token_well_formed _ _ _ _ _ _ Hwf2 Hs).
  - intros fr. apply cached_access_token_well_formed, Hwf.
  - intros fr. apply cached_streamer_token_well_formed, Hwf.
Qed.

(** ** What a returned token guarantees *)

Lemma holds_access_entry tok exp :
  holds "access_token" tok exp (Some (access_entry tok exp)).
Proof. eexists. split; [reflexivity |]. split; [reflexivity |]. eauto. Qed.

Lemma holds_streamer_entry tok exp :
  holds "token" tok exp (Some (streamer_entry tok exp)).
Proof. eexists. split; [reflexivity |]. split; [reflexivity |]. eauto. Qed.

Lemma get_access_token_returns_cached force_refresh e w tok w' :
  run (get_access_token force_refresh) e w = (Ok tok, w') ->
  exists exp t,
    holds "access_token" tok exp (session_state w' !! "access_token_data") /\
    ticks w' = S t /\
    (sent w' = sent w -> clock e t + 60 < exp).
Proof.
  revert force_refresh e w tok w'.
  intros fr e w tok w'. rewrite get_access_token_run.
  destruct (run (cached_access_token fr) e w) as [[[t0 |] | x] w1] eqn:Hp;
    [| | discriminate].
  - intros [= <- <-]. destruct fr.
    { rewrite cached_access_forced in Hp. discriminate. }
    rewrite cached_access_token_run in Hp.
    apply probe_hit in Hp as (-> & exp & Hh & Hlt).
    exists exp, (ticks w). auto.
  - intros H.
    apply refresh_access_token_effect in H as [[[x H] _] | (c & _ & H)];
      [discriminate |].
    apply access_exchange_effect in H
      as [Hs [(x & H & _) | (tok' & ttl & [= <-] & ->)]]; [discriminate |].
    exists (float_sum (clock e (ticks w1)) ttl), (ticks w1). cbn.
    rewrite lookup_insert_eq. split; [apply holds_access_entry |].
    split; [reflexivity |]. intros Hn. exfalso.
    apply cached_access_token_world in Hp as [-> | ->];
      exact (app_singleton_neq _ _ Hn).
Qed.

Lemma get_streamer_token_returns_cached a force_refresh e w tok w' :
  run (get_streamer_token a force_refresh) e w = (Ok tok, w') ->
  exists exp t,
    holds "token" tok exp (session_state w' !! "streamer_token_data") /\
    ticks w' = S t /\
    clock e t + 300 < exp.
Proof.
  revert a force_refresh e w tok w'.
  intros a fr e w tok w'. rewrite get_streamer_token_run.
  destruct (run (cached_streamer_token fr) e w) as [[[t0 |] | x] w1] eqn:Hp;
    [| | discriminate].
  - intros [= <- <-]. destruct fr.
    { rewrite cached_streamer_forced in Hp. discriminate. }
    rewrite cached_streamer_token_run in Hp.
    apply probe_hit in Hp as (-> & exp & Hh & Hlt).
    exists exp, (ticks w). auto.
  - rewrite refresh_streamer_token_run.
    destruct (run (resolve_access_token a) e w1) as [[a' | x] w2];
      [| discriminate].
    intros H. apply quote_exchange_effect in H
      as [_ [(x & H & _) | (tok' & [= <-] & ->)]]; [discriminate |].
    exists (clock e (ticks w2) + 72000), (ticks w2). cbn.
    rewrite lookup_insert_eq. split; [apply holds_streamer_entry |].
    split; [reflexivity | lia].
Qed.

(** X3.  A token returned by either acquisition is the one the slot of its
    kind holds on return.  For [get_streamer_token], and so for
    [ensure_streamer_token], the entry's expiry is always more than 300
    seconds after the last clock reading the call took, as the docstring's
    "always valid" says.  [get_access_token] gives the 60 seconds only when
    it served the cache (nothing sent): a refreshed entry expires
    [expires_in] after the reading, however small that is. *)
Theorem returned_token_is_cached :
  (forall force_refresh e w tok w',
     run (get_access_token force_refresh) e w = (Ok tok, w') ->
     exists exp t,
       holds "access_token" tok exp
         (session_state w' !! "access_token_data") /\
       ticks w' = S t /\
       (sent w' = sent w -> clock e t + 60 < exp))
  /\
  (forall a force_refresh e w tok w',
     run (get_streamer_token a force_refresh) e w = (Ok tok, w') ->
     exists exp t,
       holds "token" tok exp (session_state w' !! "streamer_token_data") /\
       ticks w' = S t /\
       clock e t + 300 < exp).
Proof.
  split.
  - exact get_access_token_returns_cached.
  - exact get_streamer_token_returns_cached.
Qed.

(** ** Which requests a call sends *)

Lemma quote_exchange_sent e w a r w' :
  quote_exchange e w a = (r, w') -> sent w' = sent w ++ [quote_request a].
Proof. intros H. apply quote_exchange_effect in H as [H _]. exact H. Qed.

Lemma get_access_token_requests force_refresh e w r w' :
  run (get_access_token force_refresh) e w = (r, w') ->
  sent w' = sent w \/
  exists c, run load_credentials e w = (Ok c, w) /\
    sent w' = sent w ++ [token_request c].
Proof.
  rewrite get_access_token_run.
  destruct (run (cached_access_token force_refresh) e w)
    as [[[tok |] | x] w1] eqn:Hp;
    pose proof (cached_access_token_world _ _ _ _ _ Hp) as Hw;
    assert (Hs : sent w1 = sent w) by (destruct Hw as [-> | ->]; reflexivity).
  - intros [= _ <-]. auto.
  - intros H. rewrite <- Hs.
    apply refresh_access_token_effect in H as [[_ ->] | (c & Hc & H)];
      [auto |].
    right. exists c. split.
    + apply (load_credentials_any e w1 w c Hc).
    + apply access_exchange_effect in H as [H _]. exact H.
  - intros [= _ <-]. auto.
Qed.

(** X4.  What a call puts on the wire.  [get_access_token] sends nothing
    or exactly the token request built from the stored credentials.
    [get_streamer_token] sends nothing, or the quote-token request alone,
    or, when no access token was supplied, the token request followed by
    the quote-token request, or the token request alone when the nested
    acquisition raised after sending it; a supplied access token is the
    one the quote-token request bears.
    Earlier history is never altered and nothing is sent twice. *)
Theorem request_discipline :
  (forall force_refresh e w r w',
     run (get_access_token force_refresh) e w = (r, w') ->
     sent w' = sent w \/
     exists c, run load_credentials e w = (Ok c, w) /\
       sent w' = sent w ++ [token_request c])
  /\
  (forall a force_refresh e w r w',
     run (get_streamer_token a force_refresh) e w = (r, w') ->
     sent w' = sent w \/
     (exists a', sent w' = sent w ++ [quote_request a'] /\
        (a <> VNone -> a' = a)) \/
     (a = VNone /\ exists c, run load_credentials e w = (Ok c, w) /\
        ((sent w' = sent w ++ [token_request c] /\ exists x, r = Raise x) \/
         exists a', sent w' = sent w ++ [token_request c; quote_request a']))).
Proof.
  split; [exact get_access_token_requests |].
  intros a fr e w r w'. rewrite get_streamer_token_run.
  destruct (run (cached_streamer_token fr) e w) as [[[t0 |] | x] w1] eqn:Hp;
    pose proof (cached_streamer_token_world _ _ _ _ _ Hp) as Hw;
    assert (Hs : sent w1 = sent w) by (destruct Hw as [-> | ->]; reflexivity).
  - intros [= _ <-]. auto.
  - rewrite refresh_streamer_token_run.
    assert (Hd : a = VNone \/ a <> VNone)
      by (destruct a; auto; right; discriminate).
    destruct Hd as [-> | Hne].
    + change (run (resolve_access_token VNone) e w1)
        with (run (get_access_token false) e w1).
      destruct (run (get_access_token false) e w1) as [[a' | x] w2] eqn:Ha;
        apply get_access_token_requests in Ha as [Hn | (c & Hc & Hn)].
      * intros H. apply quote_exchange_sent in H.
        right. left. exists a'. split; [congruence | intros []; reflexivity].
      * intros H. apply quote_exchange_sent in H.
        right. right. split; [reflexivity |]. exists c.
        split; [apply (load_credentials_any e w1 w c Hc) |].
        right. exists a'. rewrite H, Hn, Hs, <- app_assoc. reflexivity.
      * intros [= _ <-]. left. congruence.
      * intros [= <- <-]. right. right. split; [reflexivity |]. exists c.
        split; [apply (load_credentials_any e w1 w c Hc) |].
        left. split; [congruence | eauto].
    + rewrite (resolve_access_token_supplied _ _ _ Hne).
      intros H. apply quote_exchange_sent in H.
      right. left. exists a. split; [congruence | auto].
  - intros [= _ <-]. auto.
Qed.

(** ** Writing an entry and reading it back *)

(** X5.  After [get_access_token] has stored a token with lifetime [ttl]
    (the answer's [expires_in], 900 by default, an integer that converts
    to a float), the stored expiry is the float sum of the reading and
    [ttl], and the next unforced call returns that token without a request
    exactly when its clock reading plus 60 is below the stored expiry, and
    refreshes again otherwise.  With [expires_in <= 60], readings and
    lifetime below 2^53 and a clock that has not gone backwards, the stored
    token is therefore never served from the cache. *)
Theorem access_token_round_trip :
  forall force_refresh e w w1 c r d tok ttl,
    run (cached_access_token force_refresh) e w = (Ok None, w1) ->
    run load_credentials e w = (Ok c, w) ->
    http e (sent w) (token_request c) = Responded r ->
    status_code r = 200 ->
    json r = Some (VDict d) ->
    assoc "access_token" d = Some tok ->
    as_number (default (VNum 900) (assoc "expires_in" d)) = Some ttl ->
    float_of_int_overflows ttl = false ->
    exists w',
      run (get_access_token force_refresh) e w = (Ok tok, w') /\
      let acquired := clock e (ticks w1) in
      let next := clock e (ticks w') in
      session_state w' !! "access_token_data" =
        Some (access_entry tok (float_sum acquired ttl)) /\
      (next + 60 < float_sum acquired ttl ->
       run (get_access_token false) e w' = (Ok tok, tick w')) /\
      (float_sum acquired ttl <= next + 60 ->
       run (get_access_token false) e w' =
         run refresh_access_token e (tick w')) /\
      (Z.abs ttl < 2 ^ 53 -> Z.abs (acquired + ttl) < 2 ^ 53 ->
       ttl <= 60 -> acquired <= next ->
       run (get_access_token false) e w' =
         run refresh_access_token e (tick w')).
Proof.
  intros fr e w w1 c r d tok ttl Hp Hc Hr Hs Hj Ht Hn Ho.
  destruct (get_access_token_exchange _ _ _ _ _ Hp Hc) as (Hrun & _ & Hsent).
  rewrite <- Hsent in Hr.
  rewrite (access_exchange_success _ _ _ _ _ _ _ Hr Hs Hj Ht Hn Ho) in Hrun.
  eexists. split; [exact Hrun |]. cbn.
  set (w' := with_session _ _).
  assert (He : session_state w' !! "access_token_data" =
               Some (access_entry tok (float_sum (clock e (ticks w1)) ttl)))
    by apply lookup_insert_eq.
  split; [exact He |]. split; [| split].
  - intros Hlt. apply (get_access_token_hit e w' tok _ He). exact Hlt.
  - intros Hle. apply (get_access_token_stale e w' tok _ He). exact Hle.
  - intros Hb Hb' H60 Hmono. apply (get_access_token_stale e w' tok _ He).
    rewrite (float_sum_exact _ _ Hb Hb'). cbn. lia.
Qed.

(** X6.  After [get_streamer_token] has stored a token, the next unforced
    call, with any access token or none, returns it without a request
    exactly when its clock reading is less than 71700 seconds after the
    reading taken at the store, and refreshes otherwise. *)
Theorem streamer_token_round_trip :
  forall a force_refresh e w w1 a' w2 r d d' tok,
    run (cached_streamer_token force_refresh) e w = (Ok None, w1) ->
    run (resolve_access_token a) e w1 = (Ok a', w2) ->
    http e (sent w2) (quote_request a') = Responded r ->
    status_code r = 200 ->
    json r = Some (VDict d) ->
    assoc "data" d = Some (VDict d') ->
    assoc "token" d' = Some tok ->
    exists w',
      run (get_streamer_token a force_refresh) e w = (Ok tok, w') /\
      let acquired := clock e (ticks w2) in
      let next := clock e (ticks w') in
      forall b,
        (next < acquired + 71700 ->
         run (get_streamer_token b false) e w' = (Ok tok, tick w')) /\
        (acquired + 71700 <= next ->
         run (get_streamer_token b false) e w' =
           run (refresh_streamer_token b) e (tick w')).
Proof.
  intros a fr e w w1 a' w2 r d d' tok Hp Ha Hr Hs Hj Hd Ht.
  destruct (get_streamer_token_exchange _ _ _ _ _ _ _ Hp Ha) as (Hrun & _).
  rewrite (quote_exchange_success _ _ _ _ _ _ _ Hr Hs Hj Hd Ht) in Hrun.
  eexists. split; [exact Hrun |]. cbn.
  set (w' := with_session _ _).
  assert (He : session_state w' !! "streamer_token_data" =
               Some (streamer_entry tok (clock e (ticks w2) + 72000)))
    by apply lookup_insert_eq.
  intros b. split.
  - intros Hlt. apply (get_streamer_token_hit b e w' tok _ He). cbn. lia.
  - intros Hle. apply (get_streamer_token_stale b e w' tok _ He). cbn. lia.
Qed.

(** ** How the two acquisitions compose *)

(** X7.  A streamer refresh without a supplied access token takes the
    cached access token when that is fresh: the one request sent is the
    quote-token request bearing the cached token, the access slot is left
    as it was, and the secret store is not consulted, so the call does not
    depend on it.  This holds for a forced call too:
    [force_refresh=True] forces the streamer exchange only, the nested
    [get_access_token()] is called unforced. *)
Theorem streamer_refresh_reuses_fresh_access_token :
  forall force_refresh e w w1 cached exp,
    run (cached_streamer_token force_refresh) e w = (Ok None, w1) ->
    session_state w !! "access_token_data" =
      Some (access_entry cached exp) ->
    clock e (ticks w1) + 60 < exp ->
    run (get_streamer_token VNone force_refresh) e w =
      run (request_streamer_token cached) e (tick w1) /\
    exists r w',
      run (get_streamer_token VNone force_refresh) e w = (r, w') /\
      sent w' = sent w ++ [quote_request cached] /\
      session_state w' !! "access_token_data" =
        session_state w !! "access_token_data".
Proof.
  intros fr e w w1 cached exp Hp He Hlt.
  assert (Hw : session_state w1 = session_state w /\ sent w1 = sent w)
    by (apply cached_streamer_token_world in Hp as [-> | ->]; auto).
  destruct Hw as [Hss Hsent].
  assert (Ha : run (resolve_access_token VNone) e w1 = (Ok cached, tick w1)).
  { apply (get_access_token_hit e w1 cached exp); [| exact Hlt].
    rewrite Hss. exact He. }
  destruct (get_streamer_token_exchange _ _ _ _ _ _ _ Hp Ha) as (Hrun & _).
  split; [rewrite request_streamer_token_run; exact Hrun |].
  destruct (quote_exchange e (tick w1) cached) as [r w'] eqn:Hq.
  exists r, w'. split; [exact Hrun |].
  apply quote_exchange_effect in Hq as [Hs Hq]. split.
  - rewrite Hs. cbn. rewrite Hsent. reflexivity.
  - destruct Hq as [(x & _ & ->) | (tok & _ & ->)]; cbn.
    + rewrite Hss. reflexivity.
    + rewrite lookup_insert_ne by discriminate. rewrite Hss. reflexivity.
Qed.

(** X8.  When a streamer refresh has to refresh the access token first and
    the quote-token endpoint then answers with a status other than 200,
    the call raises with the streamer slot as it was, but the new access
    token has been stored: the failure does not undo the first exchange.
    The lifetime is one that converts to a float, so that the first
    exchange succeeds. *)
Theorem failed_quote_keeps_new_access_token :
  forall force_refresh e w w1 w2 c r d tok ttl q,
    run (cached_streamer_token force_refresh) e w = (Ok None, w1) ->
    run (cached_access_token false) e w1 = (Ok None, w2) ->
    run load_credentials e w = (Ok c, w) ->
    http e (sent w) (token_request c) = Responded r ->
    status_code r = 200 ->
    json r = Some (VDict d) ->
    assoc "access_token" d = Some tok ->
    as_number (default (VNum 900) (assoc "expires_in" d)) = Some ttl ->
    float_of_int_overflows ttl = false ->
    http e (sent w ++ [token_request c]) (quote_request tok) = Responded q ->
    status_code q <> 200 ->
    exists w',
      run (get_streamer_token VNone force_refresh) e w =
        (Raise (Exception ("Streamer token error: " +:+ text q)), w') /\
      sent w' = sent w ++ [token_request c; quote_request tok] /\
      session_state w' !! "access_token_data" =
        Some (access_entry tok (float_sum (clock e (ticks w2)) ttl)) /\
      session_state w' !! "streamer_token_data" =
        session_state w !! "streamer_token_data".
Proof.
  intros fr e w w1 w2 c r d tok ttl q Hp Hq Hc Hr Hs Hj Ht Hn Ho Hr' Hs'.
  assert (Hw : session_state w1 = session_state w /\ sent w1 = sent w)
    by (apply cached_streamer_token_world in Hp as [-> | ->]; auto).
  destruct Hw as [Hss Hsent].
  pose proof (load_credentials_any e w w1 c Hc) as Hc1.
  destruct (get_access_token_exchange _ _ _ _ _ Hq Hc1) as (Ha & Hss2 & Hsent2).
  assert (Hr2 : http e (sent w2) (token_request c) = Responded r)
    by (rewrite Hsent2, Hsent; exact Hr).
  rewrite (access_exchange_success _ _ _ _ _ _ _ Hr2 Hs Hj Ht Hn Ho) in Ha.
  destruct (get_streamer_token_exchange VNone _ _ _ _ _ _ Hp Ha)
    as (Hrun & _).
  rewrite Hrun.
  rewrite (quote_exchange_failure e _ tok q); [| | exact Hs'].
  - eexists. split; [reflexivity |]. cbn.
    rewrite Hsent2, Hsent, <- app_assoc. split; [reflexivity |].
    rewrite lookup_insert_eq. split; [reflexivity |].
    rewrite lookup_insert_ne by discriminate.
    rewrite Hss2, Hss. reflexivity.
  - cbn. rewrite Hsent2, Hsent. exact Hr'.
Qed.

(** ** Answers the module cannot use *)

(** X9.  A 200 answer of the token endpoint whose [expires_in] is there
    but is not a number (a string, [null], a list, an object) makes
    [get_access_token] raise [TypeError] when it adds it to the clock
    reading: the request has been sent and the clock read, but nothing is
    stored, the default of 900 applies to a missing key only. *)
Theorem non_numeric_expires_in_raises :
  forall force_refresh e w w1 c r d tok x,
    run (cached_access_token force_refresh) e w = (Ok None, w1) ->
    run load_credentials e w = (Ok c, w) ->
    http e (sent w) (token_request c) = Responded r ->
    status_code r = 200 ->
    json r = Some (VDict d) ->
    assoc "access_token" d = Some tok ->
    assoc "expires_in" d = Some x ->
    as_number x = None ->
    exists w',
      run (get_access_token force_refresh) e w = (Raise TypeError, w') /\
      session_state w' = session_state w /\
      sent w' = sent w ++ [token_request c] /\
      ticks w' = S (ticks w1).
Proof.
  intros fr e w w1 c r d tok x Hp Hc Hr Hs Hj Ht Hx Hn.
  destruct (get_access_token_exchange _ _ _ _ _ Hp Hc) as (-> & Hss & Hsent).
  rewrite <- Hsent in Hr. unfold access_exchange.
  rewrite Hr, Hs, Hj, Ht, Hx. cbn. rewrite Hn.
  eexists. split; [reflexivity |]. cbn. rewrite Hsent. auto.
Qed.

(** X10.  A 200 answer that is not the expected JSON object.  A body that
    is not JSON raises [JSONDecodeError]; a JSON value that is not an
    object (a list, a string, a number, [null]) raises [TypeError]; for
    the streamer so does an object whose ["data"] is not an object, for
    example [{"data": null}], which is not the [KeyError] of a missing
    key.  In each case the request has been sent and the slot of the kind
    is as it was. *)
Theorem unusable_success_answer :
  (forall force_refresh e w w1 c r,
     run (cached_access_token force_refresh) e w = (Ok None, w1) ->
     run load_credentials e w = (Ok c, w) ->
     http e (sent w) (token_request c) = Responded r ->
     status_code r = 200 ->
     (json r = None ->
      exists w',
        run (get_access_token force_refresh) e w = (Raise JSONDecodeError, w')
        /\ session_state w' = session_state w) /\
     (forall v, json r = Some v -> (forall d, v <> VDict d) ->
      exists w',
        run (get_access_token force_refresh) e w = (Raise TypeError, w')
        /\ session_state w' = session_state w))
  /\
  (forall a force_refresh e w w1 a' w2 r,
     run (cached_streamer_token force_refresh) e w = (Ok None, w1) ->
     run (resolve_access_token a) e w1 = (Ok a', w2) ->
     http e (sent w2) (quote_request a') = Responded r ->
     status_code r = 200 ->
     (json r = None ->
      exists w',
        run (get_streamer_token a force_refresh) e w =
          (Raise JSONDecodeError, w') /\
        session_state w' !! "streamer_token_data" =
          session_state w !! "streamer_token_data") /\
     (forall v, json r = Some v ->
      (forall d, v <> VDict d) \/
      (exists d v', v = VDict d /\ assoc "data" d = Some v' /\
         forall d', v' <> VDict d') ->
      exists w',
        run (get_streamer_token a force_refresh) e w = (Raise TypeError, w')
        /\ session_state w' !! "streamer_token_data" =
             session_state w !! "streamer_token_data")).
Proof.
  split.
  - intros fr e w w1 c r Hp Hc Hr Hs.
    destruct (get_access_token_exchange _ _ _ _ _ Hp Hc) as (-> & Hss & Hsent).
    rewrite <- Hsent in Hr. unfold access_exchange. rewrite Hr, Hs. cbn.
    split.
    + intros ->. eexists. split; [reflexivity | exact Hss].
    + intros v -> Hv. destruct v; try (eexists; split; [reflexivity | exact Hss]).
      exfalso. eapply Hv. reflexivity.
  - intros a fr e w w1 a' w2 r Hp Ha Hr Hs.
    destruct (get_streamer_token_exchange _ _ _ _ _ _ _ Hp Ha) as (-> & Hss & _).
    unfold quote_exchange. rewrite Hr, Hs. cbn. split.
    + intros ->. eexists. split; [reflexivity | exact Hss].
    + intros v -> [Hv | (d & v' & -> & Hd & Hv')].
      * destruct v; try (eexists; split; [reflexivity | exact Hss]).
        exfalso. eapply Hv. reflexivity.
      * rewrite Hd.
        destruct v'; try (eexists; split; [reflexivity | exact Hss]).
        exfalso. eapply Hv'. reflexivity.
Qed.

(** ** A healthy environment *)

Lemma healthy_get_access_token force_refresh e w :
  healthy e -> well_formed (session_state w) ->
  exists tok w', run (get_access_token force_refresh) e w = (Ok tok, w').
Proof.
  intros ((c & Hc) & Htok & _) Hwf. rewrite get_access_token_run.
  destruct (cached_access_token_well_formed force_refresh e w Hwf)
    as ([tok |] & w1 & ->); [eauto |].
  rewrite refresh_access_token_run, (Hc w1).
  destruct (Htok (sent w1) c)
    as (r & d & tok & ttl & Hr & Hs & Hj & Ht & Hn & Ho).
  rewrite (access_exchange_success _ _ _ _ _ _ _ Hr Hs Hj Ht Hn Ho). eauto.
Qed.

Lemma healthy_get_streamer_token a force_refresh e w :
  healthy e -> well_formed (session_state w) ->
  exists tok w', run (get_streamer_token a force_refresh) e w = (Ok tok, w').
Proof.
  intros Hh Hwf. rewrite get_streamer_token_run.
  destruct (cached_streamer_token_well_formed force_refresh e w Hwf)
    as ([tok |] & w1 & Hp); rewrite Hp; [eauto |].
  assert (Hwf1 : well_formed (session_state w1))
    by (apply cached_streamer_token_world in Hp as [-> | ->]; exact Hwf).
  rewrite refresh_streamer_token_run.
  assert (Ha : exists a' w2, run (resolve_access_token a) e w1 = (Ok a', w2)).
  { destruct a; try (eexists _, _; reflexivity).
    apply (healthy_get_access_token false e w1 Hh Hwf1). }
  destruct Ha as (a' & w2 & ->).
  destruct Hh as (_ & _ & Hquo).
  destruct (Hquo (sent w2) a') as (r & d & d' & tok & Hr & Hs & Hj & Hd & Ht).
  rewrite (quote_exchange_success _ _ _ _ _ _ _ Hr Hs Hj Hd Ht). eauto.
Qed.

(** X11.  In an environment where the secrets are configured and both
    endpoints answer 200 with well-formed bodies (an [expires_in], when
    there is one, being an integer that converts to a float), and on a
    session state whose slots are absent or as the module writes them,
    neither acquisition can raise: every call, forced or not, with or
    without a supplied access token, returns a token. *)
Theorem healthy_calls_return :
  forall e w,
    healthy e -> well_formed (session_state w) ->
    (forall force_refresh,
       exists tok w',
         run (get_access_token force_refresh) e w = (Ok tok, w')) /\
    (forall a force_refresh,
       exists tok w',
         run (get_streamer_token a force_refresh) e w = (Ok tok, w')) /\
    (exists tok w', run ensure_streamer_token e w = (Ok tok, w')).
Proof.
  intros e w Hh Hwf. split; [| split].
  - intros fr. apply healthy_get_access_token; assumption.
  - intros a fr. apply healthy_get_streamer_token; assumption.
  - apply healthy_get_streamer_token; assumption.
Qed.

(** ** The self-test *)


(** X13.  The self-test stops at its first stage when the credentials do
    not load: it prints the banner and the credentials error, ends with
    status 1, sends nothing and leaves the world as it was.  The error
    printed is the [ValueError] of [load_credentials] when the secrets
    file lacks one of the three keys, and Streamlit's
    [StreamlitSecretNotFoundError] when there is no secrets file. *)
Theorem self_test_without_credentials :
  (forall e w s,
     secrets e = SecretsFile s ->
     s !! "CLIENT_ID" = None \/
     s !! "CLIENT_SECRET" = None \/
     s !! "REFRESH_TOKEN" = None ->
     main e w =
       ([Line "Testing authentication flow...\n";
         ErrorLine "❌ Error loading credentials: "
           (ValueError missing_secrets)],
        1, w))
  /\
  (forall e w,
     secrets e = NoSecretsFile ->
     main e w =
       ([Line "Testing authentication flow...\n";
         ErrorLine "❌ Error loading credentials: "
           StreamlitSecretNotFoundError],
        1, w)).
Proof.
  split.
  - intros e w s Hf Hm. unfold main.
    rewrite (load_credentials_absent e w s Hf Hm). reflexivity.
  - intros e w Hf. unfold main.
    rewrite (load_credentials_no_file e w Hf). reflexivity.
Qed.

(** X14.  When the token endpoint refuses the refresh (a status other
    than 200) the self-test stops at its second stage: it prints the
    access-token error carrying the endpoint's body, ends with status 1
    after that one request, never contacts the quote-token endpoint and
    leaves the session state as it was. *)
Theorem self_test_token_refused :
  forall e w w1 c r,
    run load_credentials e w = (Ok c, w) ->
    run (cached_access_token false) e w = (Ok None, w1) ->
    http e (sent w) (token_request c) = Responded r ->
    status_code r <> 200 ->
    exists w',
      main e w =
        ([Line "Testing authentication flow...\n";
          Line "✅ Credentials loaded successfully\n";
          ErrorLine "❌ Error getting access token: "
            (Exception ("Token error: " +:+ text r))], 1, w') /\
      sent w' = sent w ++ [token_request c] /\
      session_state w' = session_state w.
Proof.
  intros e w w1 c r Hc Hp Hr Hs. unfold main. rewrite Hc.
  destruct (get_access_token_exchange _ _ _ _ _ Hp Hc) as (-> & Hss & Hsent).
  rewrite <- Hsent in Hr. rewrite (access_exchange_failure _ _ _ _ Hr Hs).
  eexists. split; [reflexivity |]. cbn. rewrite Hsent. auto.
Qed.

(** ** The network and the secret store *)

(** X15.  The module does not catch what [requests] raises: when a request
    gets no answer the exception goes to the caller, after that single
    attempt, and the slot of the kind is as it was. *)
Theorem transport_failure_propagates :
  (forall force_refresh e w w1 c,
     run (cached_access_token force_refresh) e w = (Ok None, w1) ->
     run load_credentials e w = (Ok c, w) ->
     http e (sent w) (token_request c) = Unreachable ->
     exists w',
       run (get_access_token force_refresh) e w = (Raise RequestException, w')
       /\ sent w' = sent w ++ [token_request c]
       /\ session_state w' = session_state w)
  /\
  (forall a force_refresh e w w1 a' w2,
     run (cached_streamer_token force_refresh) e w = (Ok None, w1) ->
     run (resolve_access_token a) e w1 = (Ok a', w2) ->
     http e (sent w2) (quote_request a') = Unreachable ->
     exists w',
       run (get_streamer_token a force_refresh) e w =
         (Raise RequestException, w')
       /\ sent w' = sent w2 ++ [quote_request a']
       /\ session_state w' !! "streamer_token_data" =
            session_state w !! "streamer_token_data").
Proof.
  split.
  - intros fr e w w1 c Hp Hc Hr.
    destruct (get_access_token_exchange _ _ _ _ _ Hp Hc) as (-> & Hss & Hsent).
    rewrite <- Hsent in Hr. unfold access_exchange. rewrite Hr.
    eexists. split; [reflexivity |]. cbn. rewrite Hsent. auto.
  - intros a fr e w w1 a' w2 Hp Ha Hr.
    destruct (get_streamer_token_exchange _ _ _ _ _ _ _ Hp Ha) as (-> & Hss & _).
    unfold quote_exchange. rewrite Hr.
    eexists. split; [reflexivity |]. cbn. auto.
Qed.

Lemma probe_with_secrets s key field margin e w :
  probe key field margin (with_secrets s e) w = probe key field margin e w.
Proof. reflexivity. Qed.

Lemma quote_exchange_with_secrets s e w a :
  quote_exchange (with_secrets s e) w a = quote_exchange e w a.
Proof. reflexivity. Qed.

(** X16.  [get_streamer_token] with a supplied access token never consults
    the secret store: its result and final world are the same under any
    other store, an empty one included.  The credentials are needed only
    where [get_access_token] has to refresh. *)
Theorem supplied_token_needs_no_secrets :
  forall a force_refresh e w s,
    a <> VNone ->
    run (get_streamer_token a force_refresh) (with_secrets s e) w =
      run (get_streamer_token a force_refresh) e w.
Proof.
  intros a fr e w s Ha. rewrite !get_streamer_token_run.
  assert (Hp : run (cached_streamer_token fr) (with_secrets s e) w =
               run (cached_streamer_token fr) e w).
  { destruct fr; [reflexivity |].
    rewrite !cached_streamer_token_run. apply probe_with_secrets. }
  rewrite Hp.
  destruct (run (cached_streamer_token fr) e w) as [[[tok |] | x] w1];
    try reflexivity.
  rewrite !refresh_streamer_token_run.
  rewrite !(resolve_access_token_supplied _ _ _ Ha).
  apply quote_exchange_with_secrets.
Qed.

(** ** Concrete runs of the further properties *)

Lemma scenario_env_healthy : healthy scenario_env.
Proof.
  split; [| split].
  - exists scenario_credentials. intros w.
    apply load_credentials_present; reflexivity.
  - intros h c. eexists _, _, _, _. repeat split; reflexivity.
  - intros h a. eexists _, _, _, _. repeat split; reflexivity.
Qed.

Lemma cold_well_formed : well_formed (session_state cold).
Proof. split; left; reflexivity. Qed.

(** An access slot without ["expires_at"]. *)
Lemma malformed_slot_blocks_unforced_calls_witness :
  run (get_access_token false) scenario_env poisoned =
    (Raise (KeyError "expires_at"), poisoned).
Proof.
  apply (proj1 (proj2 (proj1 malformed_slot_blocks_unforced_calls
           scenario_env poisoned (VDict [("access_token", old_access)])
           eq_refl) [("access_token", old_access)] eq_refl)).
  reflexivity.
Defined.

(** The empty session state is well formed and stays so. *)
Lemma well_formed_is_invariant_witness :
  well_formed (session_state (snd (main scenario_env cold))).
Proof.
  apply (well_formed_is_invariant scenario_env cold cold_well_formed).
Defined.

(** The scenario's first access-token call. *)
Lemma returned_token_is_cached_witness :
  exists exp t,
    holds "access_token" (VStr "AT1") exp
      (session_state (snd (run (get_access_token false) scenario_env cold))
         !! "access_token_data") /\
    ticks (snd (run (get_access_token false) scenario_env cold)) = S t /\
    (sent (snd (run (get_access_token false) scenario_env cold)) = sent cold ->
     clock scenario_env t + 60 < exp).
Proof.
  apply (proj1 returned_token_is_cached false scenario_env cold (VStr "AT1")
           (snd (run (get_access_token false) scenario_env cold))).
  reflexivity.
Defined.

(** The scenario's access-token call sends nothing or the token request. *)
Lemma request_discipline_witness :
  sent (snd (run (get_access_token false) scenario_env cold)) = sent cold \/
  exists c, run load_credentials scenario_env cold = (Ok c, cold) /\
    sent (snd (run (get_access_token false) scenario_env cold)) =
      sent cold ++ [token_request c].
Proof.
  apply (proj1 request_discipline false scenario_env cold
           (fst (run (get_access_token false) scenario_env cold))
           (snd (run (get_access_token false) scenario_env cold))).
  reflexivity.
Defined.

Lemma access_token_round_trip_witness :
  exists w',
    run (get_access_token false) scenario_env cold = (Ok (VStr "AT1"), w').
Proof.
  destruct (access_token_round_trip false scenario_env cold cold
              scenario_credentials
              {| status_code := 200; text := "(body)";
                 json := Some scenario_token_body |}
              [("access_token", VStr "AT1"); ("expires_in", VNum 900)]
              (VStr "AT1") 900
              eq_refl eq_refl eq_refl eq_refl eq_refl eq_refl eq_refl eq_refl)
    as (w' & Hrun & _).
  exists w'. exact Hrun.
Defined.

Lemma streamer_token_round_trip_witness :
  exists w',
    run (get_streamer_token supplied false) scenario_env cold =
      (Ok (VStr "ST1"), w').
Proof.
  destruct (streamer_token_round_trip supplied false scenario_env cold cold
              supplied cold
              {| status_code := 200; text := "(body)";
                 json := Some scenario_quote_body |}
              [("data", VDict [("token", VStr "ST1")])]
              [("token", VStr "ST1")] (VStr "ST1")
              eq_refl eq_refl eq_refl eq_refl eq_refl eq_refl eq_refl)
    as (w' & Hrun & _).
  exists w'. exact Hrun.
Defined.

(** A fresh access slot and a stale streamer slot, forced and unforced. *)
Lemma streamer_refresh_reuses_fresh_access_token_witness :
  run (get_streamer_token VNone false) scenario_env (warm 5000 0) =
    run (request_streamer_token old_access) scenario_env
      (tick (tick (warm 5000 0))) /\
  run (get_streamer_token VNone true) unconfigured_env (warm 5000 0) =
    run (request_streamer_token old_access) unconfigured_env
      (tick (warm 5000 0)).
Proof.
  split.
  - apply (streamer_refresh_reuses_fresh_access_token false scenario_env
             (warm 5000 0) (tick (warm 5000 0)) old_access 5000);
      reflexivity.
  - apply (streamer_refresh_reuses_fresh_access_token true unconfigured_env
             (warm 5000 0) (warm 5000 0) old_access 5000);
      reflexivity.
Defined.

Lemma failed_quote_keeps_new_access_token_witness :
  exists w',
    run (get_streamer_token VNone false) half_env cold =
      (Raise (Exception "Streamer token error: unauthorized"), w') /\
    sent w' = sent cold ++ [token_request scenario_credentials;
                            quote_request (VStr "AT1")] /\
    session_state w' !! "access_token_data" =
      Some (access_entry (VStr "AT1") (float_sum 1000 900)) /\
    session_state w' !! "streamer_token_data" =
      session_state cold !! "streamer_token_data".
Proof.
  apply (failed_quote_keeps_new_access_token false half_env cold cold cold
           scenario_credentials
           {| status_code := 200; text := "(body)";
              json := Some scenario_token_body |}
           [("access_token", VStr "AT1"); ("expires_in", VNum 900)]
           (VStr "AT1") 900 unauthorized);
    try reflexivity.
  discriminate.
Defined.

Lemma non_numeric_expires_in_raises_witness :
  exists w',
    run (get_access_token false) string_ttl_env cold = (Raise TypeError, w') /\
    session_state w' = session_state cold /\
    sent w' = sent cold ++ [token_request scenario_credentials] /\
    ticks w' = S (ticks cold).
Proof.
  apply (non_numeric_expires_in_raises false string_ttl_env cold cold
           scenario_credentials
           {| status_code := 200; text := "(body)";
              json := Some string_ttl_body |}
           [("access_token", VStr "AT1"); ("expires_in", VStr "900")]
           (VStr "AT1") (VStr "900"));
    reflexivity.
Defined.

Lemma unusable_success_answer_witness :
  exists w',
    run (get_access_token false) html_env cold = (Raise JSONDecodeError, w') /\
    session_state w' = session_state cold.
Proof.
  apply (proj1 (proj1 unusable_success_answer false html_env cold cold
           scenario_credentials not_json eq_refl eq_refl eq_refl eq_refl)).
  reflexivity.
Defined.

Lemma healthy_calls_return_witness :
  exists tok w', run ensure_streamer_token scenario_env cold = (Ok tok, w').
Proof.
  apply (healthy_calls_return scenario_env cold scenario_env_healthy
           cold_well_formed).
Defined.


Lemma self_test_without_credentials_witness :
  main unconfigured_env cold =
    ([Line "Testing authentication flow...\n";
      ErrorLine "❌ Error loading credentials: " (ValueError missing_secrets)],
     1, cold) /\
  main no_file_env cold =
    ([Line "Testing authentication flow...\n";
      ErrorLine "❌ Error loading credentials: " StreamlitSecretNotFoundError],
     1, cold).
Proof.
  split.
  - apply (proj1 self_test_without_credentials unconfigured_env cold
             {[ "CLIENT_ID" := "c1"; "REFRESH_TOKEN" := "r1" ]} eq_refl).
    right. left. reflexivity.
  - apply (proj2 self_test_without_credentials no_file_env cold eq_refl).
Defined.

Lemma self_test_token_refused_witness :
  exists w',
    main denying_env cold =
      ([Line "Testing authentication flow...\n";
        Line "✅ Credentials loaded successfully\n";
        ErrorLine "❌ Error getting access token: "
          (Exception "Token error: unauthorized")], 1, w') /\
    sent w' = sent cold ++ [token_request scenario_credentials] /\
    session_state w' = session_state cold.
Proof.
  apply (self_test_token_refused denying_env cold cold scenario_credentials
           unauthorized);
    try reflexivity.
  discriminate.
Defined.

Lemma transport_failure_propagates_witness :
  exists w',
    run (get_access_token false) offline_env cold =
      (Raise RequestException, w') /\
    sent w' = sent cold ++ [token_request scenario_credentials] /\
    session_state w' = session_state cold.
Proof.
  apply (proj1 transport_failure_propagates false offline_env cold cold
           scenario_credentials);
    reflexivity.
Defined.

Lemma supplied_token_needs_no_secrets_witness :
  run (get_streamer_token supplied false) (with_secrets ∅ scenario_env) cold =
    run (get_streamer_token supplied false) scenario_env cold.
Proof.
  apply (supplied_token_needs_no_secrets supplied false scenario_env cold ∅).
  discriminate.
Defined.
